(** * Heading Structure Analyzer: a shallow embedding of [App.tsx]

    The development follows the component's three pieces of logic:
    - [analyzeHeadings]: the forward scan over the heading elements of a
      parsed document, producing per-heading records and a two-line summary;
    - [handleFetchAndAnalyze]: the event handler that validates the URL,
      fetches through the proxy, parses and analyses, over the React state;
    - [formatResultsForExport]: the plain-text report.

    Strings are [String.string]; a character stands for one code unit below
    256.  JavaScript numbers that the component manipulates are heading
    levels, counts and HTTP status codes, all integers: they are modelled
    in [Z], and [parseInt] returns [None] where JavaScript yields NaN. *)

From Stdlib Require Import ZArith List String Ascii Bool Lia.
From Stdlib Require Import DecimalString DecimalZ.
Import ListNotations.

Local Open Scope Z_scope.
Local Open Scope list_scope.

Infix "^^" := String.append (at level 60, right associativity).

(** ** Completions *)

(** What a [throw] carries: an [Error] object with its [message], or any
    other value, of which the handler only takes [String(err)]. *)
Inductive Thrown :=
| ErrorObject (message : string)
| OtherValue (asString : string).

(** A call either returns or throws. *)
Inductive Outcome (A : Type) :=
| Returned (a : A)
| Threw (err : Thrown).
Arguments Returned {A} a.
Arguments Threw {A} err.

(** ** JavaScript string primitives used by the component *)

Module Js.

Definition LF : ascii := ascii_of_nat 10.
Definition nl : string := String LF EmptyString.

(** [String(n)] and template interpolation of an integer. *)
Definition toString (n : Z) : string := NilZero.string_of_int (Z.to_int n).

(** [s.substring(n)]: the suffix from index [n]. *)
Fixpoint substring (n : nat) (s : string) : string :=
  match n, s with
  | O, _ => s
  | S _, EmptyString => EmptyString
  | S n', String _ r => substring n' r
  end.

(** [s.startsWith(p)]. *)
Definition startsWith (s p : string) : bool := String.prefix p s.

(** WhiteSpace and LineTerminator code units below 256: TAB, LF, VT, FF,
    CR, SP and NBSP. *)
Definition isWhiteSpace (c : ascii) : bool :=
  let n := nat_of_ascii c in
  ((9 <=? n)%nat && (n <=? 13)%nat) || (n =? 32)%nat || (n =? 160)%nat.

Fixpoint trimStart (s : string) : string :=
  match s with
  | EmptyString => EmptyString
  | String c r => if isWhiteSpace c then trimStart r else s
  end.

Fixpoint trimEnd (s : string) : string :=
  match s with
  | EmptyString => EmptyString
  | String c r =>
      match trimEnd r with
      | EmptyString => if isWhiteSpace c then EmptyString else String c EmptyString
      | r' => String c r'
      end
  end.

Definition trim (s : string) : string := trimEnd (trimStart s).

Definition digit (c : ascii) : option Z :=
  let n := nat_of_ascii c in
  if ((48 <=? n)%nat && (n <=? 57)%nat)%bool then Some (Z.of_nat n - 48) else None.

(** The digit run read by [parseInt]: [acc] is [None] until a first digit
    has been seen. *)
Fixpoint parseDigits (s : string) (acc : option Z) : option Z :=
  match s with
  | EmptyString => acc
  | String c r =>
      match digit c with
      | Some d => parseDigits r (Some (10 * match acc with Some a => a | None => 0 end + d))
      | None => acc
      end
  end.

(** [parseInt(s, 10)]: leading white space, an optional sign, then the
    longest run of decimal digits; [None] is NaN. *)
Definition parseInt (s : string) : option Z :=
  match trimStart s with
  | String "-" r => option_map Z.opp (parseDigits r None)
  | String "+" r => parseDigits r None
  | r => parseDigits r None
  end.

(** ['  '.repeat(n)] for a count that is already known to be a natural
    number; the range check is in [repeat]. *)
Fixpoint repeat_nat (s : string) (n : nat) : string :=
  match n with
  | O => EmptyString
  | S n' => s ^^ repeat_nat s n'
  end.

(** [s.repeat(count)]: a negative count throws a RangeError (the message
    is the one V8 gives). *)
Definition repeat (s : string) (count : Z) : Outcome string :=
  if count <? 0
  then Threw (ErrorObject ("Invalid count value: " ^^ toString count))
  else Returned (repeat_nat s (Z.to_nat count)).

End Js.

(** ** The document, as far as the analyzer looks at it *)

(** An element of the parsed tree: its [tagName] (upper case in an HTML
    document) and its [textContent], which the DOM types as nullable. *)
Record Element := mkElement {
  tagName : string;
  textContent : option string
}.

(** A document is the sequence of its elements in document order. *)
Definition Document := list Element.

Definition headingTags : list string := ["H1"; "H2"; "H3"; "H4"; "H5"; "H6"]%string.

(** [doc.querySelectorAll('h1, h2, h3, h4, h5, h6')]: the elements whose tag
    is one of the six heading tags, in document order. *)
Definition querySelectorAll (doc : Document) : list Element :=
  filter (fun e => existsb (String.eqb (tagName e)) headingTags) doc.

Record HeadingInfo := mkHeadingInfo {
  level : Z;
  text : string;
  element : Element;
  issues : list string
}.

Record AnalysisResult := mkResult {
  headingsInfo : list HeadingInfo;
  summary : list string
}.

(** ** [analyzeHeadings] *)

(** The variables the [forEach] callback closes over and mutates. *)
Record Scan := mkScan {
  lastLevel : Z;
  pushed : list HeadingInfo;
  h1Count : Z
}.

Definition skipMessage (lastLevel level : Z) : string :=
  "Skipped heading level: H" ^^ Js.toString lastLevel ^^
  " followed by H" ^^ Js.toString level ^^ ".".

(** [parseInt(h.tagName.substring(1), 10)].  The tags selected by
    [querySelectorAll] always carry a digit, so the NaN branch is never
    taken on them (lemma [level_of_heading]). *)
Definition levelOf (h : Element) : Z :=
  match Js.parseInt (Js.substring 1 (tagName h)) with
  | Some n => n
  | None => 0
  end.

(** [h.textContent?.trim() || '']. *)
Definition textOf (h : Element) : string :=
  match textContent h with
  | None => EmptyString
  | Some s => match Js.trim s with EmptyString => EmptyString | t => t end
  end.

(** One call of the callback passed to [headingElements.forEach]. *)
Definition scanHeading (st : Scan) (h : Element) (index : nat) : Scan :=
  let level := levelOf h in
  let text := textOf h in
  let issues : list string := [] in
  let h1Count := if level =? 1 then h1Count st + 1 else h1Count st in
  let issues :=
    if (0 <? index)%nat && (level >? lastLevel st + 1)
    then issues ++ [skipMessage (lastLevel st) level]
    else issues in
  {| lastLevel := level;
     pushed := pushed st ++ [mkHeadingInfo level text h issues];
     h1Count := h1Count |}.

(** [Array.prototype.forEach] with the element and its index. *)
Fixpoint forEach {A St : Type} (f : St -> A -> nat -> St) (l : list A) (index : nat) (st : St) : St :=
  match l with
  | [] => st
  | x :: r => forEach f r (S index) (f st x index)
  end.

Definition h1Line (h1Count : Z) : string :=
  if h1Count =? 0 then "Error: No H1 tag found. Every page should have one H1."
  else if h1Count >? 1 then
    "Warning: Multiple H1 tags found (" ^^ Js.toString h1Count ^^
    "). Best practice is to have only one H1 per page."
  else "Good: Exactly one H1 tag found.".

Definition skipLine (skippedLevelIssue : bool) : string :=
  if skippedLevelIssue
  then "Issue: Heading levels are skipped (e.g., H1 followed directly by H3)."
  else "Good: Heading levels follow a logical sequence.".

Definition analyzeHeadings (doc : Document) : AnalysisResult :=
  let headingElements := querySelectorAll doc in
  let st := forEach scanHeading headingElements 0%nat (mkScan 0 [] 0) in
  let summary : list string := [] in
  let summary := summary ++ [h1Line (h1Count st)] in
  let skippedLevelIssue :=
    existsb (fun h => existsb (fun issue => Js.startsWith issue "Skipped") (issues h))
            (pushed st) in
  let summary := summary ++ [skipLine skippedLevelIssue] in
  {| headingsInfo := pushed st; summary := summary |}.

Definition el (tag txt : string) : Element := mkElement tag (Some txt).

(** ** The component's state and its environment *)

(** The five [useState] cells of [App]. *)
Record AppState := mkState {
  url : string;
  headings : list HeadingInfo;
  isLoading : bool;
  error : option string;
  analysisSummary : list string
}.

(** A [Response] as the handler reads it; [responseText] is the settled
    promise of [response.text()]. *)
Record Response := mkResponse {
  ok : bool;
  status : Z;
  statusText : string;
  responseText : Outcome string
}.

(** The calls the handler makes to the outside, in the order made. *)
Inductive Effect :=
| Fetch (proxyUrl : string)
| Analyze (doc : Document)
| ConsoleError (label : string) (err : Thrown).

Record World := mkWorld {
  state : AppState;
  effects : list Effect
}.

(** Handler code: it reads and updates the state cells, performs effects,
    and returns or throws. State updates made before a throw persist. *)
Definition Run (A : Type) : Type := World -> Outcome A * World.

Definition ret {A} (a : A) : Run A := fun w => (Returned a, w).

Definition throw {A} (e : Thrown) : Run A := fun w => (Threw e, w).

Definition bind {A B} (m : Run A) (k : A -> Run B) : Run B :=
  fun w =>
    match m w with
    | (Returned a, w') => k a w'
    | (Threw e, w') => (Threw e, w')
    end.

Notation "x <- m ;; k" := (bind m (fun x => k))
  (at level 61, m at next level, right associativity).
Notation "m ;;; k" := (bind m (fun _ => k))
  (at level 61, right associativity).

(** [try { body } catch (err) { handler err } finally { final }]. *)
Definition tryCatchFinally {A} (body : Run A) (handler : Thrown -> Run A) (final : Run unit) : Run A :=
  fun w =>
    let (r, w1) :=
      match body w with
      | (Returned a, w') => (Returned a, w')
      | (Threw e, w') => handler e w'
      end in
    match final w1 with
    | (Returned _, w2) => (r, w2)
    | (Threw e, w2) => (Threw e, w2)
    end.

Definition update (f : AppState -> AppState) : Run unit :=
  fun w => (Returned tt, mkWorld (f (state w)) (effects w)).

Definition perform (e : Effect) : Run unit :=
  fun w => (Returned tt, mkWorld (state w) (effects w ++ [e])).

Definition setHeadings (v : list HeadingInfo) : Run unit :=
  update (fun s => mkState (url s) v (isLoading s) (error s) (analysisSummary s)).
Definition setIsLoading (v : bool) : Run unit :=
  update (fun s => mkState (url s) (headings s) v (error s) (analysisSummary s)).
Definition setError (v : option string) : Run unit :=
  update (fun s => mkState (url s) (headings s) (isLoading s) v (analysisSummary s)).
Definition setAnalysisSummary (v : list string) : Run unit :=
  update (fun s => mkState (url s) (headings s) (isLoading s) (error s) v).

(** [err instanceof Error ? err.message : String(err)]. *)
Definition errorText (err : Thrown) : string :=
  match err with
  | ErrorObject message => message
  | OtherValue asString => asString
  end.

Section Handler.

(** The browser services the handler calls: [fetch] (settled: a response
    or a rejection), [DOMParser.parseFromString(html, 'text/html')], which
    never throws, and [encodeURIComponent]. *)
Variable fetch : string -> Outcome Response.
Variable parseFromString : string -> Document.
Variable encodeURIComponent : string -> string.

Definition await {A} (settled : Outcome A) : Run A := fun w => (settled, w).

(** The "basic URL validation": a scheme is prepended when missing. *)
Definition formattedUrl (url : string) : string :=
  if negb (Js.startsWith url "http://") && negb (Js.startsWith url "https://")
  then "https://" ^^ url else url.

(** The address of the CORS proxy for the formatted URL. *)
Definition proxyUrl (url : string) : string :=
  "https://api.allorigins.win/raw?url=" ^^ encodeURIComponent (formattedUrl url).

(** ** [handleFetchAndAnalyze]

    [url] is the value of the state cell the handler closed over. *)
Definition handleFetchAndAnalyze : Run unit :=
  fun w0 =>
  let url := url (state w0) in
  (if String.eqb url ""
   then setError (Some "Please enter a URL."%string)
   else
     setIsLoading true ;;;
     setError None ;;;
     setHeadings [] ;;;
     setAnalysisSummary [] ;;;
     let proxyUrl := proxyUrl url in
     tryCatchFinally
       (perform (Fetch proxyUrl) ;;;
        response <- await (fetch proxyUrl) ;;
        (if negb (ok response)
         then throw (ErrorObject ("Failed to fetch: " ^^ Js.toString (status response) ^^
                                  " " ^^ statusText response))
         else ret tt) ;;;
        html <- await (responseText response) ;;
        let doc := parseFromString html in
        perform (Analyze doc) ;;;
        let r := analyzeHeadings doc in
        setHeadings (headingsInfo r) ;;;
        setAnalysisSummary (summary r))
       (fun err =>
          perform (ConsoleError "Fetch or Parse Error:" err) ;;;
          setError (Some ("Failed to fetch or parse the URL. Error: " ^^ errorText err ^^
            ". This might be due to network issues, the website blocking requests, or the CORS proxy limitations.")))
       (setIsLoading false)) w0.

End Handler.

(** ** [formatResultsForExport] *)

(** [forEach] with a callback that may throw: the first throw ends the loop. *)
Fixpoint forEachThrow {A St : Type} (f : St -> A -> Outcome St) (l : list A) (st : St) : Outcome St :=
  match l with
  | [] => Returned st
  | x :: r =>
      match f st x with
      | Returned st' => forEachThrow f r st'
      | Threw e => Threw e
      end
  end.

(** The callback of [h.issues.forEach]: one sub-line per issue. *)
Definition appendIssue (h : HeadingInfo) (output issue : string) : Outcome string :=
  match Js.repeat "  " (level h - 1) with
  | Returned indent => Returned (output ^^ indent ^^ "  -> Issue: " ^^ issue ^^ Js.nl)
  | Threw e => Threw e
  end.

(** The callback of [headings.forEach]: the heading line, then its issues. *)
Definition appendHeading (output : string) (h : HeadingInfo) : Outcome string :=
  match Js.repeat "  " (level h - 1) with
  | Returned indent =>
      let output := output ^^ indent ^^ "H" ^^ Js.toString (level h) ^^ ": " ^^ text h ^^ Js.nl in
      if (Z.of_nat (List.length (issues h)) >? 0)
      then forEachThrow (appendIssue h) (issues h) output
      else Returned output
  | Threw e => Threw e
  end.

Definition formatResultsForExport (s : AppState) : Outcome string :=
  let output := "Heading Structure Analysis for: " ^^ url s ^^ Js.nl in
  let output := output ^^ "========================================" ^^ Js.nl ^^ Js.nl in
  let output := output ^^ "Summary:" ^^ Js.nl in
  let output := fold_left (fun output item => output ^^ "- " ^^ item ^^ Js.nl)
                          (analysisSummary s) output in
  let output := output ^^ Js.nl in
  let output := output ^^ "Headings Found:" ^^ Js.nl in
  match forEachThrow appendHeading (headings s) output with
  | Returned output =>
      let output := output ^^ Js.nl ^^ "========================================" ^^ Js.nl in
      Returned output
  | Threw e => Threw e
  end.

(** * Specification-level definitions

    The definitions below are not part of the component: they say, in the
    words of its description, what the code above is compared with. *)

(** ** The scan, heading by heading *)

(** The record the callback pushes for [h] at [index] when the previous
    heading had level [prev]. *)
Definition recordFor (prev : Z) (index : nat) (h : Element) : HeadingInfo :=
  mkHeadingInfo (levelOf h) (textOf h) h
    (if (0 <? index)%nat && (levelOf h >? prev + 1)
     then [skipMessage prev (levelOf h)] else []).

Fixpoint recordsFrom (prev : Z) (index : nat) (hs : list Element) : list HeadingInfo :=
  match hs with
  | [] => []
  | h :: r => recordFor prev index h :: recordsFrom (levelOf h) (S index) r
  end.

Definition isH1 (h : Element) : bool := levelOf h =? 1.

(** Some record carries an issue whose text begins with "Skipped". *)
Definition carriesSkipped (hs : list HeadingInfo) : Prop :=
  exists h issue, In h hs /\ In issue (issues h) /\ Js.startsWith issue "Skipped" = true.

(** ** Failed fetches *)

(** The settled fetch is a failure with text [failureText]: the request was
    rejected, the response has a non-success status, or reading its body
    was rejected. *)
Definition fetchFails (settled : Outcome Response) (failureText : string) : Prop :=
  match settled with
  | Threw err => failureText = errorText err
  | Returned response =>
      (ok response = false /\
       failureText = "Failed to fetch: " ^^ Js.toString (status response) ^^ " " ^^
                     statusText response)
      \/ (ok response = true /\ exists err,
            responseText response = Threw err /\ failureText = errorText err)
  end.

(** ** The layout of the report *)

Definition rule : string := "========================================".

Definition indentation (h : HeadingInfo) : string :=
  Js.repeat_nat "  " (Z.to_nat (level h - 1)).

Definition summaryLine (item : string) : string := "- " ^^ item.

Definition headingLine (h : HeadingInfo) : string :=
  indentation h ^^ "H" ^^ Js.toString (level h) ^^ ": " ^^ text h.

Definition issueLine (h : HeadingInfo) (issue : string) : string :=
  indentation h ^^ "  -> Issue: " ^^ issue.

Definition headingBlock (h : HeadingInfo) : list string :=
  headingLine h :: map (issueLine h) (issues h).

(** The report, line by line: header, rule, blank, the summary section,
    blank, the headings section, blank, rule. *)
Definition reportLines (url : string) (summary : list string) (headings : list HeadingInfo)
  : list string :=
  ["Heading Structure Analysis for: " ^^ url; rule; ""; "Summary:"]%string
  ++ map summaryLine summary
  ++ [""; "Headings Found:"]%string
  ++ flat_map headingBlock headings
  ++ [""; rule]%string.

(** Every line is terminated by a line feed. *)
Definition unlines (ls : list string) : string :=
  fold_right (fun l rest => l ^^ Js.nl ^^ rest) EmptyString ls.

(** ** Reading the heading lines of a report *)

Definition isLF (c : ascii) : bool := Ascii.eqb c Js.LF.

Fixpoint lineFree (s : string) : bool :=
  match s with
  | EmptyString => true
  | String c r => negb (isLF c) && lineFree r
  end.

(** [report.split("\n")]. *)
Fixpoint splitLines (s : string) : list string :=
  match s with
  | EmptyString => [EmptyString]
  | String c r =>
      if isLF c then EmptyString :: splitLines r
      else match splitLines r with
           | l :: ls => String c l :: ls
           | [] => [String c EmptyString]
           end
  end.

Definition isDigit (c : ascii) : bool :=
  match Js.digit c with Some _ => true | None => false end.

Fixpoint takeDigits (s : string) : string :=
  match s with
  | EmptyString => EmptyString
  | String c r => if isDigit c then String c (takeDigits r) else EmptyString
  end.

Fixpoint dropDigits (s : string) : string :=
  match s with
  | EmptyString => EmptyString
  | String c r => if isDigit c then dropDigits r else s
  end.

Fixpoint dropSpaces (s : string) : string :=
  match s with
  | String " " r => dropSpaces r
  | _ => s
  end.

(** A heading line is some indentation, then [H], one or more digits, a
    colon and a space, then the text up to the end of the line. *)
Definition parseHeadingLine (line : string) : option (Z * string) :=
  match dropSpaces line with
  | String "H" r =>
      match takeDigits r, dropDigits r with
      | String _ _ as ds, String ":" (String " " t) =>
          option_map (fun n => (n, t)) (Js.parseInt ds)
      | _, _ => None
      end
  | _ => None
  end.

(** What a line contributes: its heading, if it is a heading line. *)
Definition headingOf (line : string) : list (Z * string) :=
  match parseHeadingLine line with
  | Some p => [p]
  | None => []
  end.

Definition parseHeadingLines (report : string) : list (Z * string) :=
  flat_map headingOf (splitLines report).

Definition levelAndText (h : HeadingInfo) : Z * string := (level h, text h).

(** A string without a line feed, and a stored result all of whose strings
    are such and whose levels are heading levels. *)
Definition singleLine (s : string) : Prop := lineFree s = true.

Definition printableHeading (h : HeadingInfo) : Prop :=
  1 <= level h /\ singleLine (text h) /\ Forall singleLine (issues h).

(** The value of a digit sequence read after [acc], most significant
    digit first. *)
Fixpoint uintVal (d : Decimal.uint) (acc : Z) : Z :=
  match d with
  | Decimal.Nil => acc
  | Decimal.D0 d => uintVal d (10 * acc + 0)
  | Decimal.D1 d => uintVal d (10 * acc + 1)
  | Decimal.D2 d => uintVal d (10 * acc + 2)
  | Decimal.D3 d => uintVal d (10 * acc + 3)
  | Decimal.D4 d => uintVal d (10 * acc + 4)
  | Decimal.D5 d => uintVal d (10 * acc + 5)
  | Decimal.D6 d => uintVal d (10 * acc + 6)
  | Decimal.D7 d => uintVal d (10 * acc + 7)
  | Decimal.D8 d => uintVal d (10 * acc + 8)
  | Decimal.D9 d => uintVal d (10 * acc + 9)
  end.

(** Two stored results for the round-trip question: one heading whose text
    runs over two lines, and two headings with one line each. *)
Definition twoLineText : string := "Intro" ^^ Js.nl ^^ "  H2: Details".

Definition stateOf (url : string) (r : AnalysisResult) : AppState :=
  mkState url (headingsInfo r) false None (summary r).

Definition oneHeading : AppState :=
  stateOf "example.com" (analyzeHeadings [el "H1" twoLineText]).

Definition twoHeadings : AppState :=
  stateOf "example.com" (analyzeHeadings [el "H1" "Intro"; el "H2" "Details"]).

(** * The rest of the component *)

(** ** The URL box and the initial state *)

(** The initial values of the five [useState] cells. *)
Definition initialState : AppState := mkState EmptyString [] false None [].

(** [onChange={(e) => setUrl(e.target.value)}]. *)
Definition setUrl (v : string) : Run unit :=
  update (fun s => mkState v (headings s) (isLoading s) (error s) (analysisSummary s)).

(** ** [handleCopyToClipboard] and [handleExportToFile] *)

(** The anchor element the export builds. *)
Record Anchor := mkAnchor {
  href : string;
  download : string
}.

(** What the two export handlers do to the page and the browser. *)
Inductive UiEffect :=
| ClipboardWrite (text : string)
| Alert (message : string)
| CreateObjectURL (content type : string)
| AppendChild (link : Anchor)
| Click (link : Anchor)
| RemoveChild (link : Anchor)
| RevokeObjectURL (objectUrl : string).


(** The character class [a-z0-9] under the [i] flag, on code units. *)
Definition isAlphanumeric (c : ascii) : bool :=
  let n := nat_of_ascii c in
  ((48 <=? n)%nat && (n <=? 57)%nat)
  || ((65 <=? n)%nat && (n <=? 90)%nat)
  || ((97 <=? n)%nat && (n <=? 122)%nat).

(** [s.replace(/[^a-z0-9]/gi, '_')]. *)
Fixpoint replaceNonAlphanumeric (s : string) : string :=
  match s with
  | EmptyString => EmptyString
  | String c r =>
      String (if isAlphanumeric c then c else "_"%char) (replaceNonAlphanumeric r)
  end.

(** The value given to [link.download]. *)
Definition downloadName (url : string) : string :=
  "heading_analysis_" ^^ replaceNonAlphanumeric url ^^ ".txt".

(** [createObjectURL] gives the address of the blob made of the report
    with its MIME type. *)
Definition handleExportToFile (createObjectURL : string -> string -> string) (s : AppState)
  : Outcome unit * list UiEffect :=
  match formatResultsForExport s with
  | Threw e => (Threw e, [])
  | Returned results =>
      let objectUrl := createObjectURL results "text/plain"%string in
      let link := mkAnchor objectUrl (downloadName (url s)) in
      (Returned tt,
       [ CreateObjectURL results "text/plain";
         AppendChild link;
         Click link;
         RemoveChild link;
         RevokeObjectURL (href link) ])
  end.

(** ** [getSummaryIcon] *)

Inductive IconName := AlertTriangle | Info | CheckCircle.

Record Icon := mkIcon {
  iconName : IconName;
  iconClassName : string
}.

Definition getSummaryIcon (item : string) : option Icon :=
  if Js.startsWith item "Error:" || Js.startsWith item "Issue:"
  then Some (mkIcon AlertTriangle "inline-block mr-2 h-5 w-5 text-red-500")
  else if Js.startsWith item "Warning:"
  then Some (mkIcon Info "inline-block mr-2 h-5 w-5 text-yellow-500")
  else if Js.startsWith item "Good:"
  then Some (mkIcon CheckCircle "inline-block mr-2 h-5 w-5 text-green-500")
  else None.

(** ** What [App] renders

    The view keeps the parts of the returned tree that depend on the state:
    the disabled flags and the label of the button, the error banner, and
    the results panel with its summary and heading outline. *)

(** [{h.text || <i>(empty)</i>}]. *)
Inductive OutlineText :=
| Shown (text : string)
| EmptyPlaceholder.

Record OutlineRow := mkRow {
  rowClassName : string;
  labelClassName : string;
  label : string;
  rowText : OutlineText;
  rowIssues : option (list string)
}.

Inductive Outline :=
| OutlineList (rows : list OutlineRow)
| NoHeadings (message : string).

Record ResultsPanel := mkPanel {
  summaryItems : list (option Icon * string);
  outline : Outline
}.

Record View := mkView {
  inputValue : string;
  inputDisabled : bool;
  buttonDisabled : bool;
  buttonLabel : string;
  errorBanner : option string;
  results : option ResultsPanel
}.

(** [pl-${(h.level - 1) * 4}], the first class of a row. *)
Definition paddingClass (h : HeadingInfo) : string :=
  "pl-" ^^ Js.toString ((level h - 1) * 4).

Definition renderRow (h : HeadingInfo) : OutlineRow :=
  {| rowClassName :=
       paddingClass h ^^ " border-l-2 " ^^
       (if Z.of_nat (List.length (issues h)) >? 0
        then "border-red-400 bg-red-50" else "border-gray-300") ^^
       " p-2 rounded-r-md";
     labelClassName :=
       "font-semibold text-gray-800 " ^^ (if level h =? 1 then "text-lg" else EmptyString);
     label := "H" ^^ Js.toString (level h) ^^ ":";
     rowText := match text h with
                | EmptyString => EmptyPlaceholder
                | t => Shown t
                end;
     rowIssues := if Z.of_nat (List.length (issues h)) >? 0
                  then Some (issues h) else None |}.

Definition renderResults (s : AppState) : ResultsPanel :=
  {| summaryItems := map (fun item => (getSummaryIcon item, item)) (analysisSummary s);
     outline := if Z.of_nat (List.length (headings s)) >? 0
                then OutlineList (map renderRow (headings s))
                else NoHeadings "No headings (H1-H6) found on the page." |}.

Definition render (s : AppState) : View :=
  {| inputValue := url s;
     inputDisabled := isLoading s;
     buttonDisabled := isLoading s;
     buttonLabel := if isLoading s then "Analyzing..." else "Analyze";
     errorBanner := match error s with
                    | Some (String _ _ as e) => Some e
                    | _ => None
                    end;
     results := if ((Z.of_nat (List.length (headings s)) >? 0)
                    || (Z.of_nat (List.length (analysisSummary s)) >? 0))
                   && negb (isLoading s)
                then Some (renderResults s) else None |}.

(** The [safelist] of [tailwind.config.js]: the padding classes that are
    built at run time. *)
Definition safelist : list string :=
  ["pl-0"; "pl-4"; "pl-8"; "pl-12"; "pl-16"; "pl-20"]%string.

(** ** Sessions *)

Section Sessions.

Variable parseFromString : string -> Document.
Variable encodeURIComponent : string -> string.

(** The states a session goes through between two events: the URL box is
    edited, or the Analyze button is pressed and the run settles, whatever
    the fetch gives. *)
Inductive Reachable : AppState -> Prop :=
| reach_initial : Reachable initialState
| reach_typed (s : AppState) (v : string) :
    Reachable s ->
    Reachable (state (snd (setUrl v (mkWorld s []))))
| reach_analyzed (s : AppState) (fetch : string -> Outcome Response) :
    Reachable s ->
    Reachable (state (snd (handleFetchAndAnalyze fetch parseFromString encodeURIComponent
                                                 (mkWorld s [])))).

End Sessions.

(** ** Auxiliary notions for the statements *)

Fixpoint allWhiteSpace (s : string) : bool :=
  match s with
  | EmptyString => true
  | String c r => Js.isWhiteSpace c && allWhiteSpace r
  end.

(** The first and the last character of a string. *)
Definition firstChar (s : string) : option ascii :=
  match s with
  | EmptyString => None
  | String c _ => Some c
  end.

Fixpoint lastChar (s : string) : option ascii :=
  match s with
  | EmptyString => None
  | String c EmptyString => Some c
  | String _ r => lastChar r
  end.

Definition notWhiteSpace (c : option ascii) : Prop :=
  match c with
  | Some c => Js.isWhiteSpace c = false
  | None => True
  end.

Fixpoint allChars (p : ascii -> bool) (s : string) : bool :=
  match s with
  | EmptyString => true
  | String c r => p c && allChars p r
  end.


Definition isAnalyze (e : Effect) : bool :=
  match e with Analyze _ => true | _ => false end.

(** The message the handler shows for a failure with text [failureText],
    and the state a failed run ends in. *)
Definition failureMessage (failureText : string) : string :=
  "Failed to fetch or parse the URL. Error: " ^^ failureText ^^
  ". This might be due to network issues, the website blocking requests, or the CORS proxy limitations.".

Definition failedState (url failureText : string) : AppState :=
  mkState url [] false (Some (failureMessage failureText)) [].

(** The state a successful run ends in. *)
Definition analysedState (url : string) (doc : Document) : AppState :=
  mkState url (headingsInfo (analyzeHeadings doc)) false None (summary (analyzeHeadings doc)).

(** The three icons [getSummaryIcon] can return. *)
Definition redTriangle : Icon := mkIcon AlertTriangle "inline-block mr-2 h-5 w-5 text-red-500".
Definition yellowInfo : Icon := mkIcon Info "inline-block mr-2 h-5 w-5 text-yellow-500".
Definition greenCheck : Icon := mkIcon CheckCircle "inline-block mr-2 h-5 w-5 text-green-500".

(** Two adjacent headings of which the second is more than one level deeper. *)
Definition levelJump (hs : list Element) : Prop :=
  exists i ha hb,
    nth_error hs i = Some ha /\ nth_error hs (S i) = Some hb
    /\ levelOf hb > levelOf ha + 1.

(** What holds of the stored result between two events. *)
Definition settled (s : AppState) : Prop :=
  isLoading s = false
  /\ Forall (fun h => 1 <= level h <= 6) (headings s)
  /\ (analysisSummary s = [] /\ headings s = [] \/ List.length (analysisSummary s) = 2%nat)
  /\ error s <> Some EmptyString.

(** * The model on the description's scenario *)

Example analyze_title_sub_other :
  analyzeHeadings [el "H1" "Title"; el "P" "para"; el "H3" " Sub "; el "H2" "Other"]
  = {| headingsInfo :=
         [ mkHeadingInfo 1 "Title" (el "H1" "Title") [];
           mkHeadingInfo 3 "Sub" (el "H3" " Sub ")
             ["Skipped heading level: H1 followed by H3."%string];
           mkHeadingInfo 2 "Other" (el "H2" "Other") [] ];
       summary :=
         [ "Good: Exactly one H1 tag found.";
           "Issue: Heading levels are skipped (e.g., H1 followed directly by H3)." ]%string |}.
Proof. reflexivity. Qed.

Example analyze_lone_h4 :
  analyzeHeadings [el "DIV" "x"; mkElement "H4" None]
  = {| headingsInfo := [mkHeadingInfo 4 "" (mkElement "H4" None) []];
       summary := [ "Error: No H1 tag found. Every page should have one H1.";
                    "Good: Heading levels follow a logical sequence." ]%string |}.
Proof. reflexivity. Qed.

Example analyze_decrease :
  map issues (headingsInfo (analyzeHeadings [el "H1" "a"; el "H2" "b"; el "H3" "c";
                                             el "H4" "d"; el "H2" "e"; el "H6" "f"]))
  = [[]; []; []; []; []; ["Skipped heading level: H2 followed by H6."%string]].
Proof. reflexivity. Qed.

Example parseInt_samples :
  (Js.parseInt "1", Js.parseInt "  42px", Js.parseInt "-7", Js.parseInt "x1")
  = (Some 1, Some 42, Some (-7), None).
Proof. reflexivity. Qed.

Example trim_sample :
  Js.trim (Js.nl ^^ "  Getting  started " ^^ Js.nl) = "Getting  started"%string.
Proof. reflexivity. Qed.

(** * Properties of [analyzeHeadings] *)

Section ScanFacts.

Lemma forEach_scan_pushed (hs : list Element) :
  forall index st,
    pushed (forEach scanHeading hs index st)
    = pushed st ++ recordsFrom (lastLevel st) index hs.
Proof.
  induction hs as [|h r IH]; intros index st; simpl.
  - now rewrite app_nil_r.
  - rewrite IH. simpl. rewrite <- app_assoc. reflexivity.
Qed.

Lemma forEach_scan_h1Count (hs : list Element) :
  forall index st,
    h1Count (forEach scanHeading hs index st)
    = h1Count st + Z.of_nat (List.length (filter isH1 hs)).
Proof.
  induction hs as [|h r IH]; intros index st; simpl.
  - lia.
  - rewrite IH. simpl. unfold isH1.
    destruct (levelOf h =? 1); simpl List.length; lia.
Qed.

Lemma analyze_headingsInfo (doc : Document) :
  headingsInfo (analyzeHeadings doc) = recordsFrom 0 0 (querySelectorAll doc).
Proof. unfold analyzeHeadings. simpl. now rewrite forEach_scan_pushed. Qed.

Lemma recordsFrom_length (hs : list Element) :
  forall prev index, List.length (recordsFrom prev index hs) = List.length hs.
Proof. induction hs; intros; simpl; auto. Qed.

Lemma recordsFrom_head (hs : list Element) (prev : Z) (index : nat) :
  nth_error (recordsFrom prev index hs) 0
  = option_map (recordFor prev index) (nth_error hs 0).
Proof. destruct hs; reflexivity. Qed.

(** Past the first position the record only depends on the heading and
    on its predecessor. *)
Lemma recordsFrom_succ (hs : list Element) :
  forall prev index i ha,
    nth_error hs i = Some ha ->
    nth_error (recordsFrom prev index hs) (S i)
    = option_map (recordFor (levelOf ha) (S (index + i))) (nth_error hs (S i)).
Proof.
  induction hs as [|h r IH]; intros prev index i ha Ha.
  - destruct i; discriminate.
  - destruct i as [|i]; simpl in Ha.
    + injection Ha as ->. rewrite Nat.add_0_r.
      change (nth_error (recordsFrom (levelOf ha) (S index) r) 0
              = option_map (recordFor (levelOf ha) (S index)) (nth_error r 0)).
      apply recordsFrom_head.
    + change (nth_error (recordsFrom (levelOf h) (S index) r) (S i)
              = option_map (recordFor (levelOf ha) (S (index + S i))) (nth_error r (S i))).
      rewrite (IH _ _ _ _ Ha). now rewrite Nat.add_succ_r.
Qed.

Lemma recordFor_later_issues (prev : Z) (index : nat) (h : Element) :
  issues (recordFor prev (S index) h)
  = if levelOf h >? prev + 1 then [skipMessage prev (levelOf h)] else [].
Proof. reflexivity. Qed.

(** The elements picked by the selector are the six heading tags, and
    [parseInt] reads their level off the tag. *)
Lemma level_of_heading (doc : Document) (h : Element) :
  In h (querySelectorAll doc) ->
  1 <= levelOf h <= 6 /\ tagName h = "H" ^^ Js.toString (levelOf h).
Proof.
  unfold querySelectorAll. rewrite filter_In. intros [_ Htag].
  destruct h as [tag txt]. unfold levelOf. simpl in *.
  repeat (apply orb_true_iff in Htag as [Htag|Htag];
          [apply String.eqb_eq in Htag; subst tag; vm_compute; intuition congruence|]).
  discriminate.
Qed.

(** Every record keeps its element, the level of its tag and its trimmed text. *)
Lemma recordsFrom_elements (hs : list Element) :
  forall prev index, map element (recordsFrom prev index hs) = hs.
Proof. induction hs; intros; simpl; f_equal; auto. Qed.

Lemma nth_error_recordsFrom_level (hs : list Element) :
  forall prev index i h,
    nth_error hs i = Some h ->
    exists r, nth_error (recordsFrom prev index hs) i = Some r /\ level r = levelOf h.
Proof.
  induction hs as [|h0 r IH]; intros prev index i h Hi.
  - destruct i; discriminate.
  - destruct i as [|i]; simpl in Hi.
    + injection Hi as ->. eexists; split; reflexivity.
    + apply (IH (levelOf h0) (S index)) in Hi. exact Hi.
Qed.

End ScanFacts.

(** ** Skip issues *)

(** C1. For two adjacent headings [ha], [hb] of a document, at positions
    [i] and [i+1], the record of [hb] carries an issue if and only if the
    level of [hb] exceeds the level of [ha] by more than one, and the issue
    is then exactly "Skipped heading level: H{a} followed by H{b}.", where
    [a] is the level of [ha] itself. *)
Theorem skip_issue_iff_level_jump (doc : Document) (i : nat) (ha hb : Element) :
  nth_error (querySelectorAll doc) i = Some ha ->
  nth_error (querySelectorAll doc) (S i) = Some hb ->
  exists rb,
    nth_error (headingsInfo (analyzeHeadings doc)) (S i) = Some rb
    /\ element rb = hb
    /\ level rb = levelOf hb
    /\ (issues rb <> [] <-> levelOf hb > levelOf ha + 1)
    /\ (levelOf hb > levelOf ha + 1 ->
        issues rb = ["Skipped heading level: H" ^^ Js.toString (levelOf ha) ^^
                     " followed by H" ^^ Js.toString (levelOf hb) ^^ "."]).
Proof.
  intros Ha Hb. rewrite analyze_headingsInfo.
  rewrite (recordsFrom_succ _ _ _ _ _ Ha), Hb. simpl option_map.
  eexists; split; [reflexivity|].
  rewrite recordFor_later_issues. simpl element. simpl level.
  destruct (Z.gtb_spec (levelOf hb) (levelOf ha + 1)) as [Hgt|Hle].
  - repeat split; try reflexivity; try discriminate. lia.
  - repeat split; try reflexivity; try congruence; lia.
Qed.

Lemma skip_issue_iff_level_jump_witness :
  exists rb,
    nth_error (headingsInfo (analyzeHeadings [el "H2" "a"; el "DIV" "x"; el "H5" "b"])) 1 = Some rb
    /\ issues rb = ["Skipped heading level: H2 followed by H5."%string].
Proof.
  destruct (skip_issue_iff_level_jump [el "H2" "a"; el "DIV" "x"; el "H5" "b"] 0
              (el "H2" "a") (el "H5" "b") eq_refl eq_refl)
    as (rb & Hnth & _ & _ & _ & Hmsg).
  exists rb. split; [exact Hnth|]. apply Hmsg. vm_compute. reflexivity.
Defined.

(** C2. The first heading of a document never carries an issue, whatever
    its level; a document whose only heading is an H4 yields one record
    with an empty issue list. *)
Theorem first_heading_has_no_issue :
  (forall (doc : Document) (h : Element) (rest : list Element),
     querySelectorAll doc = h :: rest ->
     exists r rs,
       headingsInfo (analyzeHeadings doc) = r :: rs
       /\ element r = h /\ level r = levelOf h /\ issues r = [])
  /\ (forall txt : option string,
        headingsInfo (analyzeHeadings [mkElement "H4" txt])
        = [mkHeadingInfo 4 (textOf (mkElement "H4" txt)) (mkElement "H4" txt) []]).
Proof.
  split.
  - intros doc h rest Hsel. rewrite analyze_headingsInfo, Hsel. simpl.
    eexists; eexists; split; [reflexivity|]. now repeat split.
  - intros txt. reflexivity.
Qed.

Lemma first_heading_has_no_issue_witness :
  exists r rs,
    headingsInfo (analyzeHeadings [el "P" "intro"; el "H3" "Start"; el "H4" "Next"]) = r :: rs
    /\ level r = 3 /\ issues r = [].
Proof.
  destruct (proj1 first_heading_has_no_issue
              [el "P" "intro"; el "H3" "Start"; el "H4" "Next"]
              (el "H3" "Start") [el "H4" "Next"] eq_refl)
    as (r & rs & Hout & _ & Hlevel & Hissues).
  exists r, rs. repeat split; assumption.
Defined.

(** C3. When the second of two adjacent headings has a lower level than the
    first, its record carries no issue, however large the decrease. *)
Theorem decrease_has_no_issue (doc : Document) (i : nat) (ha hb : Element) :
  nth_error (querySelectorAll doc) i = Some ha ->
  nth_error (querySelectorAll doc) (S i) = Some hb ->
  levelOf hb < levelOf ha ->
  exists rb,
    nth_error (headingsInfo (analyzeHeadings doc)) (S i) = Some rb
    /\ element rb = hb
    /\ issues rb = [].
Proof.
  intros Ha Hb Hlt. rewrite analyze_headingsInfo.
  rewrite (recordsFrom_succ _ _ _ _ _ Ha), Hb. simpl option_map.
  eexists; split; [reflexivity|]. split; [reflexivity|].
  rewrite recordFor_later_issues.
  destruct (Z.gtb_spec (levelOf hb) (levelOf ha + 1)); [lia|reflexivity].
Qed.

Lemma decrease_has_no_issue_witness :
  exists rb,
    nth_error (headingsInfo (analyzeHeadings [el "H1" "t"; el "H4" "deep"; el "H2" "up"])) 2
    = Some rb
    /\ element rb = el "H2" "up"
    /\ issues rb = [].
Proof.
  apply (decrease_has_no_issue [el "H1" "t"; el "H4" "deep"; el "H2" "up"] 1
           (el "H4" "deep") (el "H2" "up") eq_refl eq_refl).
  vm_compute. reflexivity.
Defined.

(** C10. Every record carries at most one issue: its issue list is empty,
    or it is the single skip message for the record and the record just
    before it. *)
Theorem at_most_one_issue (doc : Document) (i : nat) (r : HeadingInfo) :
  nth_error (headingsInfo (analyzeHeadings doc)) i = Some r ->
  issues r = []
  \/ exists j p,
       i = S j
       /\ nth_error (headingsInfo (analyzeHeadings doc)) j = Some p
       /\ level r > level p + 1
       /\ issues r = ["Skipped heading level: H" ^^ Js.toString (level p) ^^
                      " followed by H" ^^ Js.toString (level r) ^^ "."].
Proof.
  rewrite analyze_headingsInfo. intros Hr.
  destruct i as [|j].
  - left. rewrite recordsFrom_head in Hr.
    destruct (nth_error (querySelectorAll doc) 0); [|discriminate].
    injection Hr as <-. reflexivity.
  - destruct (nth_error (querySelectorAll doc) j) as [ha|] eqn:Ha.
    + rewrite (recordsFrom_succ _ _ _ _ _ Ha) in Hr.
      destruct (nth_error (querySelectorAll doc) (S j)) as [hb|]; [|discriminate].
      injection Hr as <-. rewrite recordFor_later_issues. simpl level.
      destruct (Z.gtb_spec (levelOf hb) (levelOf ha + 1)) as [Hgt|_]; [right|now left].
      destruct (nth_error_recordsFrom_level _ 0 0%nat _ _ Ha) as (p & Hp & Hlevel).
      exists j, p. rewrite Hlevel. repeat split; try assumption. lia.
    + exfalso. apply nth_error_None in Ha.
      assert (Hlen : (S j < List.length (recordsFrom 0 0 (querySelectorAll doc)))%nat)
        by (apply nth_error_Some; congruence).
      rewrite recordsFrom_length in Hlen. lia.
Qed.

Lemma at_most_one_issue_witness :
  exists r,
    nth_error (headingsInfo (analyzeHeadings [el "H1" "t"; el "H3" "s"])) 1 = Some r
    /\ (issues r = [] \/ exists j p, 1%nat = S j
          /\ nth_error (headingsInfo (analyzeHeadings [el "H1" "t"; el "H3" "s"])) j = Some p
          /\ level r > level p + 1
          /\ issues r = ["Skipped heading level: H" ^^ Js.toString (level p) ^^
                         " followed by H" ^^ Js.toString (level r) ^^ "."]).
Proof.
  eexists. split; [reflexivity|].
  apply (at_most_one_issue [el "H1" "t"; el "H3" "s"] 1). reflexivity.
Defined.

(** ** The summary *)

(** C4. A document without heading elements yields no records and the
    two-line summary: the missing-H1 error, then the logical-sequence line. *)
Theorem no_headings_result (doc : Document) :
  querySelectorAll doc = [] ->
  analyzeHeadings doc
  = {| headingsInfo := [];
       summary := [ "Error: No H1 tag found. Every page should have one H1.";
                    "Good: Heading levels follow a logical sequence." ]%string |}.
Proof. intros Hsel. unfold analyzeHeadings. rewrite Hsel. reflexivity. Qed.

Lemma no_headings_result_witness :
  analyzeHeadings [el "P" "text"; el "DIV" "more"; el "HEADER" "not a heading"]
  = {| headingsInfo := [];
       summary := [ "Error: No H1 tag found. Every page should have one H1.";
                    "Good: Heading levels follow a logical sequence." ]%string |}.
Proof.
  apply (no_headings_result [el "P" "text"; el "DIV" "more"; el "HEADER" "not a heading"]).
  reflexivity.
Defined.

Lemma carriesSkipped_existsb (hs : list HeadingInfo) :
  existsb (fun h => existsb (fun issue => Js.startsWith issue "Skipped") (issues h)) hs = true
  <-> carriesSkipped hs.
Proof.
  unfold carriesSkipped. rewrite existsb_exists. split.
  - intros (h & Hin & Hex). apply existsb_exists in Hex as (issue & Hissue & Hpre).
    now exists h, issue.
  - intros (h & issue & Hin & Hissue & Hpre). exists h. split; [assumption|].
    apply existsb_exists. now exists issue.
Qed.

(** C5. The summary always has exactly two lines, in this order: the line
    for the number [n] of H1 headings (error for [n = 0], success for
    [n = 1], a warning that prints [n] for [n > 1]), then the skip line
    (the aggregate issue line when some record carries an issue beginning
    with "Skipped", the success line otherwise). *)
Theorem summary_is_h1_line_then_skip_line (doc : Document) :
  let n := Z.of_nat (List.length (filter isH1 (querySelectorAll doc))) in
  let records := headingsInfo (analyzeHeadings doc) in
  exists h1 skip,
    summary (analyzeHeadings doc) = [h1; skip]
    /\ (n = 0 -> h1 = "Error: No H1 tag found. Every page should have one H1."%string)
    /\ (n = 1 -> h1 = "Good: Exactly one H1 tag found."%string)
    /\ (n > 1 -> h1 = "Warning: Multiple H1 tags found (" ^^ Js.toString n ^^
                      "). Best practice is to have only one H1 per page.")
    /\ (carriesSkipped records ->
        skip = "Issue: Heading levels are skipped (e.g., H1 followed directly by H3)."%string)
    /\ (~ carriesSkipped records ->
        skip = "Good: Heading levels follow a logical sequence."%string).
Proof.
  intros n records. unfold analyzeHeadings in *. cbv zeta in *. simpl summary.
  simpl headingsInfo in records.
  eexists; eexists; split; [reflexivity|].
  rewrite forEach_scan_h1Count. simpl h1Count. fold n. change (0 + n) with n.
  assert (Hn : 0 <= n) by (unfold n; lia).
  unfold h1Line, skipLine.
  repeat split.
  - intros ->. reflexivity.
  - intros ->. reflexivity.
  - intros Hgt. destruct (Z.eqb_spec n 0); [lia|]. destruct (Z.gtb_spec n 1); [reflexivity|lia].
  - intros Hc. apply carriesSkipped_existsb in Hc. fold records. now rewrite Hc.
  - intros Hc. fold records.
    destruct (existsb _ records) eqn:E; [|reflexivity].
    apply carriesSkipped_existsb in E. contradiction.
Qed.

Lemma summary_is_h1_line_then_skip_line_witness :
  summary (analyzeHeadings [el "H1" "One"; el "H1" "Two"; el "H4" "Deep"])
  = [ "Warning: Multiple H1 tags found (2). Best practice is to have only one H1 per page.";
      "Issue: Heading levels are skipped (e.g., H1 followed directly by H3)." ]%string.
Proof.
  destruct (summary_is_h1_line_then_skip_line [el "H1" "One"; el "H1" "Two"; el "H4" "Deep"])
    as (h1 & skip & Hsum & _ & _ & Hmany & Hskip & _).
  rewrite Hsum, Hmany, Hskip.
  - reflexivity.
  - exists (mkHeadingInfo 4 "Deep" (el "H4" "Deep")
                           ["Skipped heading level: H1 followed by H4."%string]).
    eexists. split; [right; right; left; reflexivity|].
    split; [left; reflexivity|reflexivity].
  - vm_compute. reflexivity.
Defined.

(** * Properties of [handleFetchAndAnalyze] *)

Section HandlerFacts.

Variable fetch : string -> Outcome Response.
Variable parseFromString : string -> Document.
Variable encodeURIComponent : string -> string.

(** A successful run, for comparison: the analyzer is called once, on the
    parsed body, and its result is stored. *)
Lemma successful_run (w : World) (response : Response) (html : string) :
  url (state w) <> EmptyString ->
  fetch (proxyUrl encodeURIComponent (url (state w))) = Returned response ->
  ok response = true ->
  responseText response = Returned html ->
  let r := analyzeHeadings (parseFromString html) in
  handleFetchAndAnalyze fetch parseFromString encodeURIComponent w
  = (Returned tt,
     mkWorld (mkState (url (state w)) (headingsInfo r) false None (summary r))
             (effects w ++ [Fetch (proxyUrl encodeURIComponent (url (state w)));
                            Analyze (parseFromString html)])).
Proof.
  intros Hurl Hfetch Hok Htext r. unfold handleFetchAndAnalyze.
  destruct (String.eqb_spec (url (state w)) EmptyString) as [E|_]; [contradiction|].
  unfold tryCatchFinally, bind, perform, await, setHeadings, setAnalysisSummary,
    setIsLoading, setError, update, ret, throw. simpl.
  rewrite Hfetch, Hok. simpl. rewrite Htext. simpl.
  rewrite <- app_assoc. reflexivity.
Qed.

End HandlerFacts.

(** C8. A run with an empty URL is rejected at once: the error message
    "Please enter a URL." is set, nothing is fetched, the analyzer is not
    called, and the stored headings and summary are left as they were. *)
Theorem empty_url_is_rejected
    (fetch : string -> Outcome Response) (parseFromString : string -> Document)
    (encodeURIComponent : string -> string) (w : World) :
  url (state w) = EmptyString ->
  exists w',
    handleFetchAndAnalyze fetch parseFromString encodeURIComponent w = (Returned tt, w')
    /\ effects w' = effects w
    /\ error (state w') = Some "Please enter a URL."%string
    /\ headings (state w') = headings (state w)
    /\ analysisSummary (state w') = analysisSummary (state w)
    /\ isLoading (state w') = isLoading (state w).
Proof.
  intros Hurl. unfold handleFetchAndAnalyze. rewrite Hurl. simpl.
  eexists. split; [reflexivity|]. simpl. now repeat split.
Qed.

(** C9. When the fetch fails (the request is rejected, the status is not a
    success, or the body cannot be read), the run ends with no headings and
    no summary lines stored, the loading flag cleared, and an error message
    that quotes the failure text; the analyzer is not called. *)
Theorem failed_fetch_leaves_no_result
    (fetch : string -> Outcome Response) (parseFromString : string -> Document)
    (encodeURIComponent : string -> string) (w : World) (failureText : string) :
  url (state w) <> EmptyString ->
  fetchFails (fetch (proxyUrl encodeURIComponent (url (state w)))) failureText ->
  exists w' err,
    handleFetchAndAnalyze fetch parseFromString encodeURIComponent w = (Returned tt, w')
    /\ headings (state w') = []
    /\ analysisSummary (state w') = []
    /\ isLoading (state w') = false
    /\ error (state w')
       = Some ("Failed to fetch or parse the URL. Error: " ^^ failureText ^^
               ". This might be due to network issues, the website blocking requests, or the CORS proxy limitations.")
    /\ errorText err = failureText
    /\ effects w' = effects w ++ [Fetch (proxyUrl encodeURIComponent (url (state w)));
                                  ConsoleError "Fetch or Parse Error:" err].
Proof.
  intros Hurl Hfail. unfold handleFetchAndAnalyze.
  destruct (String.eqb_spec (url (state w)) EmptyString) as [E|_]; [contradiction|].
  unfold tryCatchFinally, bind, perform, await, setHeadings, setAnalysisSummary,
    setIsLoading, setError, update, ret, throw. simpl.
  unfold fetchFails in Hfail.
  destruct (fetch (proxyUrl encodeURIComponent (url (state w)))) as [response|err].
  - destruct Hfail as [[Hok ->]|[Hok (err & Htext & ->)]]; rewrite Hok; simpl.
    + eexists; eexists; split; [reflexivity|]. simpl.
      rewrite <- app_assoc. now repeat split.
    + rewrite Htext. simpl.
      eexists; exists err; split; [reflexivity|]. simpl.
      rewrite <- app_assoc. now repeat split.
  - subst failureText. simpl.
    eexists; exists err; split; [reflexivity|]. simpl.
    rewrite <- app_assoc. now repeat split.
Qed.

Lemma empty_url_is_rejected_witness :
  let previous := [mkHeadingInfo 1 "Old" (el "H1" "Old") []] in
  let w := mkWorld (mkState "" previous false None ["Good: Exactly one H1 tag found."%string]) [] in
  exists w',
    handleFetchAndAnalyze (fun _ => Threw (ErrorObject "Failed to fetch"))
                          (fun _ => []) (fun s => s) w = (Returned tt, w')
    /\ effects w' = []
    /\ error (state w') = Some "Please enter a URL."%string
    /\ headings (state w') = previous.
Proof.
  intros previous w.
  destruct (empty_url_is_rejected (fun _ => Threw (ErrorObject "Failed to fetch"))
              (fun _ => []) (fun s => s) w eq_refl)
    as (w' & Hrun & Heff & Herr & Hhead & _).
  exists w'. repeat split; assumption.
Defined.

Lemma failed_fetch_leaves_no_result_witness :
  let previous := [mkHeadingInfo 1 "Old" (el "H1" "Old") []] in
  let w := mkWorld (mkState "example.com" previous false None
                            ["Good: Exactly one H1 tag found."%string]) [] in
  let notFound := mkResponse false 404 "Not Found" (Returned "<h1>404</h1>"%string) in
  exists w',
    handleFetchAndAnalyze (fun _ => Returned notFound) (fun _ => [el "H1" "404"]) (fun s => s) w
    = (Returned tt, w')
    /\ headings (state w') = []
    /\ analysisSummary (state w') = []
    /\ error (state w')
       = Some ("Failed to fetch or parse the URL. Error: Failed to fetch: 404 Not Found" ^^
               ". This might be due to network issues, the website blocking requests, or the CORS proxy limitations.").
Proof.
  intros previous w notFound.
  destruct (failed_fetch_leaves_no_result (fun _ => Returned notFound)
              (fun _ => [el "H1" "404"]) (fun s => s) w
              "Failed to fetch: 404 Not Found")
    as (w' & err & Hrun & Hhead & Hsum & _ & Herr & _).
  - discriminate.
  - left. split; reflexivity.
  - exists w'. repeat split; assumption.
Defined.

(** * Properties of [formatResultsForExport] *)

Section StringFacts.

Lemma append_assoc (a b c : string) : (a ^^ b) ^^ c = a ^^ (b ^^ c).
Proof. induction a as [|x a IH]; simpl; [reflexivity|now rewrite IH]. Qed.

Lemma append_nil_r (a : string) : a ^^ EmptyString = a.
Proof. induction a as [|x a IH]; simpl; [reflexivity|now rewrite IH]. Qed.

Lemma unlines_app (xs ys : list string) :
  unlines (xs ++ ys) = unlines xs ^^ unlines ys.
Proof.
  induction xs as [|x xs IH]; simpl; [reflexivity|].
  now rewrite IH, !append_assoc.
Qed.

Lemma unlines_cons (x : string) (xs : list string) :
  unlines (x :: xs) = x ^^ Js.nl ^^ unlines xs.
Proof. reflexivity. Qed.

End StringFacts.

Section FormatFacts.

Lemma summary_loop (items : list string) :
  forall output,
    fold_left (fun output item => output ^^ "- " ^^ item ^^ Js.nl) items output
    = output ^^ unlines (map summaryLine items).
Proof.
  induction items as [|item items IH]; intros output; cbn [fold_left map].
  - apply eq_sym, append_nil_r.
  - rewrite IH, unlines_cons. unfold summaryLine. now rewrite !append_assoc.
Qed.

Lemma repeat_indentation (h : HeadingInfo) :
  1 <= level h -> Js.repeat "  " (level h - 1) = Returned (indentation h).
Proof.
  intros Hlevel. unfold Js.repeat, indentation.
  destruct (Z.ltb_spec (level h - 1) 0); [lia|reflexivity].
Qed.

Lemma repeat_throws (h : HeadingInfo) :
  level h < 1 -> exists err, Js.repeat "  " (level h - 1) = Threw err.
Proof.
  intros Hlevel. unfold Js.repeat.
  destruct (Z.ltb_spec (level h - 1) 0); [eexists; reflexivity|lia].
Qed.

Lemma issues_loop (h : HeadingInfo) (Hlevel : 1 <= level h) (items : list string) :
  forall output,
    forEachThrow (appendIssue h) items output
    = Returned (output ^^ unlines (map (issueLine h) items)).
Proof.
  induction items as [|item items IH]; intros output; cbn [forEachThrow map].
  - f_equal. apply eq_sym, append_nil_r.
  - unfold appendIssue at 1. rewrite (repeat_indentation h Hlevel), IH, unlines_cons.
    unfold issueLine. now rewrite !append_assoc.
Qed.

Lemma appendHeading_block (output : string) (h : HeadingInfo) :
  1 <= level h ->
  appendHeading output h = Returned (output ^^ unlines (headingBlock h)).
Proof.
  intros Hlevel. unfold appendHeading. rewrite (repeat_indentation h Hlevel).
  unfold headingBlock. rewrite unlines_cons. unfold headingLine.
  destruct (issues h) as [|issue rest] eqn:E.
  - cbn [List.length map Z.of_nat Z.gtb Z.compare unlines fold_right].
    now rewrite !append_assoc, append_nil_r.
  - replace (Z.of_nat (List.length (issue :: rest)) >? 0) with true
      by (symmetry; apply Z.gtb_lt; simpl List.length; lia).
    rewrite (issues_loop h Hlevel). now rewrite !append_assoc.
Qed.

Lemma headings_loop (hs : list HeadingInfo) :
  Forall (fun h => 1 <= level h) hs ->
  forall output,
    forEachThrow appendHeading hs output
    = Returned (output ^^ unlines (flat_map headingBlock hs)).
Proof.
  induction 1 as [|h hs Hlevel _ IH]; intros output.
  - cbn [forEachThrow flat_map]. f_equal. apply eq_sym, append_nil_r.
  - cbn [forEachThrow flat_map]. rewrite (appendHeading_block _ _ Hlevel), IH.
    now rewrite unlines_app, append_assoc.
Qed.

End FormatFacts.

Lemma format_is_unlines (s : AppState) :
  Forall (fun h => 1 <= level h) (headings s) ->
  formatResultsForExport s
  = Returned (unlines (reportLines (url s) (analysisSummary s) (headings s))).
Proof.
  intros Hlevels. unfold formatResultsForExport, reportLines.
  rewrite summary_loop, (headings_loop _ Hlevels).
  f_equal. rewrite !unlines_app. simpl unlines.
  rewrite !append_assoc. simpl. rewrite !append_assoc. reflexivity.
Qed.

(** C7. The report is the header line, a rule and the "Summary:" title,
    each summary line behind "- ", the "Headings Found:" title, then for
    each heading the line [H{level}: {text}] behind [level - 1] units of
    two spaces, followed by one line per issue behind the same indentation
    and "  -> Issue: ", and a closing rule; every line ends with a line
    feed.  Levels are heading levels, at least 1. *)
Theorem report_layout (s : AppState) :
  Forall (fun h => 1 <= level h) (headings s) ->
  formatResultsForExport s
  = Returned (unlines (reportLines (url s) (analysisSummary s) (headings s))).
Proof. apply format_is_unlines. Qed.

Lemma report_layout_witness :
  formatResultsForExport
    (stateOf "example.com" (analyzeHeadings [el "H1" "Title"; el "H3" "Sub"]))
  = Returned (unlines
      [ "Heading Structure Analysis for: example.com";
        "========================================";
        "";
        "Summary:";
        "- Good: Exactly one H1 tag found.";
        "- Issue: Heading levels are skipped (e.g., H1 followed directly by H3).";
        "";
        "Headings Found:";
        "H1: Title";
        "    H3: Sub";
        "      -> Issue: Skipped heading level: H1 followed by H3.";
        "";
        "========================================" ]%string).
Proof.
  apply (report_layout
           (stateOf "example.com" (analyzeHeadings [el "H1" "Title"; el "H3" "Sub"]))).
  vm_compute. repeat first [discriminate | constructor | intro].
Defined.

(** A stored level below 1 makes [repeat] throw: no report is produced. *)
Lemma format_throws_below_level_one (s : AppState) (h : HeadingInfo) (rest : list HeadingInfo) :
  headings s = h :: rest -> level h < 1 ->
  exists err, formatResultsForExport s = Threw err.
Proof.
  intros Hhs Hlevel. unfold formatResultsForExport. rewrite Hhs.
  cbn [forEachThrow]. unfold appendHeading at 1.
  destruct (repeat_throws h Hlevel) as (err & ->). now exists err.
Qed.

(** ** Decimal numerals *)

Section DecimalFacts.

Lemma parseDigits_uint (d : Decimal.uint) :
  forall a, Js.parseDigits (NilEmpty.string_of_uint d) (Some a) = Some (uintVal d a).
Proof. induction d; intros a; simpl; try reflexivity; apply IHd. Qed.

Lemma of_uint_acc_uintVal (d : Decimal.uint) :
  forall acc, Z.pos (Pos.of_uint_acc d acc) = uintVal d (Z.pos acc).
Proof.
  induction d; intros acc; cbn [Pos.of_uint_acc uintVal]; try reflexivity;
    rewrite IHd; f_equal; lia.
Qed.

Lemma of_uint_uintVal (d : Decimal.uint) : Z.of_uint d = uintVal d 0.
Proof.
  unfold Z.of_uint.
  induction d; simpl; try reflexivity; try exact IHd;
    apply of_uint_acc_uintVal.
Qed.

Lemma parseInt_uint (d : Decimal.uint) :
  d <> Decimal.Nil ->
  Js.parseInt (NilEmpty.string_of_uint d) = Some (Z.of_uint d).
Proof.
  intros Hd. rewrite of_uint_uintVal.
  destruct d; try contradiction; unfold Js.parseInt; simpl; apply parseDigits_uint.
Qed.

Lemma toString_pos (p : positive) :
  Js.toString (Z.pos p) = NilEmpty.string_of_uint (Pos.to_uint p).
Proof.
  unfold Js.toString. simpl. unfold NilZero.string_of_uint.
  pose proof (DecimalPos.Unsigned.to_uint_nonnil p) as Hnil.
  destruct (Pos.to_uint p); [contradiction|reflexivity..].
Qed.

(** [parseInt] reads back what interpolation prints. *)
Lemma parseInt_toString (n : Z) : 0 <= n -> Js.parseInt (Js.toString n) = Some n.
Proof.
  intros Hn. destruct n as [|p|p]; [reflexivity| |lia].
  rewrite toString_pos, parseInt_uint by apply DecimalPos.Unsigned.to_uint_nonnil.
  unfold Z.of_uint. now rewrite DecimalPos.Unsigned.of_to.
Qed.

Lemma takeDigits_uint (d : Decimal.uint) (rest : string) :
  takeDigits (NilEmpty.string_of_uint d ^^ rest)
  = NilEmpty.string_of_uint d ^^ takeDigits rest.
Proof. induction d; simpl; try reflexivity; now rewrite IHd. Qed.

Lemma dropDigits_uint (d : Decimal.uint) (rest : string) :
  dropDigits (NilEmpty.string_of_uint d ^^ rest) = dropDigits rest.
Proof. induction d; simpl; try reflexivity; exact IHd. Qed.

Lemma lineFree_uint (d : Decimal.uint) : lineFree (NilEmpty.string_of_uint d) = true.
Proof. induction d; simpl; try reflexivity; exact IHd. Qed.

Lemma uint_nonempty (d : Decimal.uint) :
  d <> Decimal.Nil -> exists c r, NilEmpty.string_of_uint d = String c r.
Proof. destruct d; try contradiction; intros _; simpl; eauto. Qed.

End DecimalFacts.

(** ** Lines *)

Section LineFacts.

Lemma lineFree_append (a b : string) :
  lineFree (a ^^ b) = lineFree a && lineFree b.
Proof.
  induction a as [|c a IH]; simpl; [reflexivity|].
  now rewrite IH, andb_assoc.
Qed.

Lemma singleLine_append (a b : string) :
  singleLine a -> singleLine b -> singleLine (a ^^ b).
Proof. unfold singleLine. rewrite lineFree_append. now intros -> ->. Qed.

Lemma singleLine_indent (k : nat) : singleLine (Js.repeat_nat "  " k).
Proof. induction k as [|k IH]; [reflexivity|exact IH]. Qed.

Lemma singleLine_toString (n : Z) : 0 <= n -> singleLine (Js.toString n).
Proof.
  intros Hn. destruct n as [|p|p]; [reflexivity| |lia].
  rewrite toString_pos. apply lineFree_uint.
Qed.

Lemma splitLines_line (l rest : string) :
  singleLine l -> splitLines (l ^^ Js.nl ^^ rest) = l :: splitLines rest.
Proof.
  unfold singleLine. induction l as [|c l IH]; intros Hl.
  - reflexivity.
  - simpl in Hl. apply andb_true_iff in Hl as [Hc Hl].
    cbn [String.append splitLines]. apply negb_true_iff in Hc. rewrite Hc.
    now rewrite (IH Hl).
Qed.

Lemma splitLines_unlines (ls : list string) :
  Forall singleLine ls -> splitLines (unlines ls) = ls ++ [EmptyString].
Proof.
  induction 1 as [|l ls Hl _ IH]; [reflexivity|].
  rewrite unlines_cons, (splitLines_line _ _ Hl), IH. reflexivity.
Qed.

Lemma dropSpaces_indent (k : nat) (s : string) :
  dropSpaces (Js.repeat_nat "  " k ^^ s) = dropSpaces s.
Proof. induction k as [|k IH]; [reflexivity|exact IH]. Qed.

End LineFacts.

(** ** Reading the lines of a report *)

Section ParseFacts.

Lemma parse_headingLine (h : HeadingInfo) :
  1 <= level h -> parseHeadingLine (headingLine h) = Some (level h, text h).
Proof.
  intros Hlevel. unfold parseHeadingLine, headingLine, indentation.
  rewrite dropSpaces_indent. cbn [String.append dropSpaces].
  destruct (level h) as [|p|p] eqn:E; try lia.
  pose proof (parseInt_toString (Z.pos p) ltac:(lia)) as Hparse.
  rewrite toString_pos in *.
  rewrite takeDigits_uint, dropDigits_uint.
  change (takeDigits (String ":" (String " " (text h)))) with EmptyString.
  change (dropDigits (String ":" (String " " (text h))))
    with (String ":" (String " " (text h))).
  rewrite append_nil_r.
  destruct (uint_nonempty (Pos.to_uint p) (DecimalPos.Unsigned.to_uint_nonnil p))
    as (c & r & Hs).
  rewrite Hs in *. rewrite Hparse. reflexivity.
Qed.

Lemma parse_issueLine (h : HeadingInfo) (issue : string) :
  parseHeadingLine (issueLine h issue) = None.
Proof.
  unfold parseHeadingLine, issueLine, indentation.
  now rewrite dropSpaces_indent.
Qed.

Lemma parse_summaryLine (item : string) : parseHeadingLine (summaryLine item) = None.
Proof. reflexivity. Qed.

Lemma parse_headerLine (url : string) :
  parseHeadingLine ("Heading Structure Analysis for: " ^^ url) = None.
Proof. reflexivity. Qed.

Lemma parse_summary (items : list string) :
  flat_map headingOf (map summaryLine items) = [].
Proof. induction items as [|item items IH]; [reflexivity|exact IH]. Qed.

Lemma parse_issues (h : HeadingInfo) (items : list string) :
  flat_map headingOf (map (issueLine h) items) = [].
Proof.
  induction items as [|item items IH]; [reflexivity|].
  cbn [map flat_map]. unfold headingOf at 1. now rewrite parse_issueLine.
Qed.

Lemma parse_blocks (hs : list HeadingInfo) :
  Forall (fun h => 1 <= level h) hs ->
  flat_map headingOf (flat_map headingBlock hs) = map levelAndText hs.
Proof.
  induction 1 as [|h hs Hlevel _ IH]; [reflexivity|].
  cbn [flat_map map]. rewrite flat_map_app, IH. unfold headingBlock.
  cbn [flat_map]. rewrite parse_issues, app_nil_r.
  unfold headingOf. now rewrite (parse_headingLine _ Hlevel).
Qed.

Lemma singleLine_block (h : HeadingInfo) :
  printableHeading h -> Forall singleLine (headingBlock h).
Proof.
  intros (Hlevel & Htext & Hissues). unfold headingBlock. constructor.
  - unfold headingLine, indentation.
    repeat apply singleLine_append;
      auto using singleLine_indent; try reflexivity.
    apply singleLine_toString. lia.
  - apply Forall_map. eapply Forall_impl; [|exact Hissues].
    intros issue Hissue. unfold issueLine, indentation.
    repeat apply singleLine_append; auto using singleLine_indent; reflexivity.
Qed.

Lemma singleLine_reportLines (url : string) (summary : list string) (hs : list HeadingInfo) :
  singleLine url -> Forall singleLine summary -> Forall printableHeading hs ->
  Forall singleLine (reportLines url summary hs).
Proof.
  intros Hurl Hsummary Hhs. unfold reportLines.
  apply Forall_app; split; [|apply Forall_app; split; [|apply Forall_app; split;
    [|apply Forall_app; split]]].
  - repeat constructor. now apply singleLine_append.
  - apply Forall_map. eapply Forall_impl; [|exact Hsummary].
    intros item Hitem. now apply singleLine_append.
  - repeat constructor.
  - apply Forall_flat_map. eapply Forall_impl; [|exact Hhs].
    apply singleLine_block.
  - repeat constructor.
Qed.

End ParseFacts.

(** ** Round trip *)

Lemma parse_report (url : string) (summary : list string) (hs : list HeadingInfo) :
  singleLine url -> Forall singleLine summary -> Forall printableHeading hs ->
  parseHeadingLines (unlines (reportLines url summary hs)) = map levelAndText hs.
Proof.
  intros Hurl Hsummary Hhs. unfold parseHeadingLines.
  rewrite splitLines_unlines by now apply singleLine_reportLines.
  unfold reportLines. rewrite !flat_map_app, parse_summary, parse_blocks.
  - cbn [flat_map]. unfold headingOf at 1. rewrite parse_headerLine.
    now rewrite !app_nil_r.
  - eapply Forall_impl; [|exact Hhs]. now intros h (Hlevel & _).
Qed.

(** C6, as amended. When the URL, the summary lines, the heading texts and
    the issues hold no line feed, and the levels are heading levels, the
    report is produced and reading its heading lines gives back the
    (level, text) pairs of the stored headings, in order. *)
Theorem heading_lines_round_trip (s : AppState) :
  singleLine (url s) ->
  Forall singleLine (analysisSummary s) ->
  Forall printableHeading (headings s) ->
  exists report,
    formatResultsForExport s = Returned report
    /\ parseHeadingLines report = map levelAndText (headings s).
Proof.
  intros Hurl Hsummary Hhs. eexists. split.
  - apply format_is_unlines. eapply Forall_impl; [|exact Hhs]. now intros h (Hlevel & _).
  - now apply parse_report.
Qed.

Lemma heading_lines_round_trip_witness :
  exists report,
    formatResultsForExport twoHeadings = Returned report
    /\ parseHeadingLines report = [(1, "Intro"%string); (2, "Details"%string)].
Proof.
  apply (heading_lines_round_trip twoHeadings).
  - reflexivity.
  - vm_compute. repeat constructor.
  - vm_compute. repeat first [discriminate | constructor | intro].
Defined.

(** C6, as stated, fails. A heading whose text runs over two lines gives,
    character for character, the report of two one-line headings: the
    heading lines read back are those of the two headings, not the one
    stored, and no way of reading the report can tell the two apart. *)
Lemma round_trip_fails_on_two_line_text :
  formatResultsForExport oneHeading = formatResultsForExport twoHeadings
  /\ map levelAndText (headings oneHeading) = [(1, twoLineText)]
  /\ map levelAndText (headings twoHeadings) = [(1, "Intro"%string); (2, "Details"%string)]
  /\ exists report,
       formatResultsForExport oneHeading = Returned report
       /\ parseHeadingLines report = [(1, "Intro"%string); (2, "Details"%string)]
       /\ parseHeadingLines report <> map levelAndText (headings oneHeading).
Proof.
  split; [vm_compute; reflexivity|].
  split; [vm_compute; reflexivity|].
  split; [vm_compute; reflexivity|].
  eexists. split; [vm_compute; reflexivity|].
  split; [vm_compute; reflexivity|].
  vm_compute. discriminate.
Qed.

Lemma two_results_one_report :
  exists report,
    formatResultsForExport oneHeading = Returned report
    /\ formatResultsForExport twoHeadings = Returned report
    /\ map levelAndText (headings oneHeading) <> map levelAndText (headings twoHeadings).
Proof.
  eexists. split; [vm_compute; reflexivity|]. split; [vm_compute; reflexivity|].
  vm_compute. discriminate.
Qed.

(** Whatever function reads reports, it cannot give back the pairs of both
    stored results. *)
Lemma no_reader_round_trips (read : string -> list (Z * string)) :
  ~ (forall s report,
       formatResultsForExport s = Returned report ->
       read report = map levelAndText (headings s)).
Proof.
  intros Hread.
  destruct two_results_one_report as (report & H1 & H2 & Hne).
  apply Hne. now rewrite <- (Hread _ _ H1), <- (Hread _ _ H2).
Qed.

(** ** Reports of analysed documents *)

Section AnalysedReports.

Lemma singleLine_skipMessage (prev level : Z) :
  0 <= prev -> 0 <= level -> singleLine (skipMessage prev level).
Proof.
  intros Hprev Hlevel. unfold skipMessage.
  repeat apply singleLine_append; auto using singleLine_toString; reflexivity.
Qed.

Lemma recordsFrom_printable (hs : list Element) :
  Forall (fun h => 1 <= levelOf h <= 6) hs ->
  Forall (fun h => singleLine (textOf h)) hs ->
  forall prev index, 0 <= prev ->
    Forall printableHeading (recordsFrom prev index hs).
Proof.
  induction 1 as [|h hs Hlevel _ IH]; intros Htexts prev index Hprev; [constructor|].
  inversion Htexts as [|? ? Htext Htexts']; subst.
  cbn [recordsFrom]. constructor.
  - unfold printableHeading, recordFor. cbn [level text issues].
    repeat split; [lia|assumption|].
    destruct ((0 <? index)%nat && (levelOf h >? prev + 1)); repeat constructor.
    apply singleLine_skipMessage; lia.
  - apply IH; [assumption|lia].
Qed.

Lemma recordsFrom_levelAndText (hs : list Element) :
  forall prev index,
    map levelAndText (recordsFrom prev index hs)
    = map (fun h => (levelOf h, textOf h)) hs.
Proof.
  induction hs as [|h hs IH]; intros prev index; [reflexivity|].
  cbn [recordsFrom map]. now rewrite IH.
Qed.

Lemma singleLine_summary (doc : Document) :
  Forall singleLine (summary (analyzeHeadings doc)).
Proof.
  unfold analyzeHeadings. cbn [summary app].
  rewrite forEach_scan_h1Count. cbn [h1Count].
  set (n := Z.of_nat (List.length (filter isH1 (querySelectorAll doc)))).
  repeat constructor.
  - unfold h1Line. destruct (0 + n =? 0); [reflexivity|].
    destruct (0 + n >? 1); [|reflexivity].
    repeat apply singleLine_append; try reflexivity.
    apply singleLine_toString. unfold n. lia.
  - unfold skipLine. now destruct (existsb _ _).
Qed.

(** The report of an analysed document reads back to its headings as
    soon as the URL and the heading texts are single lines. *)
Lemma analysed_round_trip (url : string) (doc : Document) :
  singleLine url ->
  Forall (fun h => singleLine (textOf h)) (querySelectorAll doc) ->
  exists report,
    formatResultsForExport (stateOf url (analyzeHeadings doc)) = Returned report
    /\ parseHeadingLines report
       = map (fun h => (levelOf h, textOf h)) (querySelectorAll doc).
Proof.
  intros Hurl Htexts.
  assert (Hprintable : Forall printableHeading (headingsInfo (analyzeHeadings doc))).
  { rewrite analyze_headingsInfo. apply recordsFrom_printable; [|assumption|lia].
    apply Forall_forall. intros h Hin. now apply (level_of_heading doc). }
  exists (unlines (reportLines url (summary (analyzeHeadings doc))
                               (headingsInfo (analyzeHeadings doc)))).
  split.
  - apply (format_is_unlines (stateOf url (analyzeHeadings doc))).
    eapply Forall_impl; [|exact Hprintable]. now intros h (Hlevel & _).
  - rewrite parse_report; auto using singleLine_summary.
    rewrite analyze_headingsInfo. apply recordsFrom_levelAndText.
Qed.

End AnalysedReports.

(** * Further properties of [analyzeHeadings] *)

Section RecordFacts.

Lemma recordsFrom_Forall (P : Element -> Prop) (hs : list Element) :
  Forall P hs ->
  forall prev index,
    Forall (fun r => P (element r) /\ level r = levelOf (element r)
                     /\ text r = textOf (element r))
           (recordsFrom prev index hs).
Proof.
  induction 1 as [|h hs Hh _ IH]; intros prev index; cbn [recordsFrom]; constructor.
  - now repeat split.
  - apply IH.
Qed.

Lemma recordsFrom_app (xs ys : list Element) :
  forall prev index,
    exists prev',
      recordsFrom prev index (xs ++ ys)
      = recordsFrom prev index xs ++ recordsFrom prev' (index + List.length xs) ys.
Proof.
  induction xs as [|x xs IH]; intros prev index.
  - exists prev. cbn [app recordsFrom List.length]. now rewrite Nat.add_0_r.
  - destruct (IH (levelOf x) (S index)) as (prev' & Heq). exists prev'.
    cbn [app recordsFrom List.length]. rewrite Heq.
    now rewrite Nat.add_succ_r.
Qed.

Lemma querySelectorAll_app (d1 d2 : Document) :
  querySelectorAll (d1 ++ d2) = querySelectorAll d1 ++ querySelectorAll d2.
Proof. apply filter_app. Qed.

Lemma selected_levels (doc : Document) :
  Forall (fun h => 1 <= levelOf h <= 6 /\ tagName h = "H" ^^ Js.toString (levelOf h))
         (querySelectorAll doc).
Proof. apply Forall_forall. intros h Hin. now apply (level_of_heading doc). Qed.

Lemma skipMessage_starts_with_Skipped (prev level : Z) :
  Js.startsWith (skipMessage prev level) "Skipped" = true.
Proof. reflexivity. Qed.

(** The records that carry a "Skipped" issue are those after a level jump. *)
Lemma carriesSkipped_levelJump (hs : list Element) :
  carriesSkipped (recordsFrom 0 0 hs) <-> levelJump hs.
Proof.
  split.
  - intros (r & issue & Hin & Hissue & _).
    apply In_nth_error in Hin as (i & Hi).
    destruct i as [|j].
    + rewrite recordsFrom_head in Hi.
      destruct (nth_error hs 0); [|discriminate]. injection Hi as <-. destruct Hissue.
    + destruct (nth_error hs j) as [ha|] eqn:Ha.
      * rewrite (recordsFrom_succ _ _ _ _ _ Ha) in Hi.
        destruct (nth_error hs (S j)) as [hb|] eqn:Hb; [|discriminate].
        injection Hi as <-. rewrite recordFor_later_issues in Hissue.
        destruct (Z.gtb_spec (levelOf hb) (levelOf ha + 1)); [|destruct Hissue].
        exists j, ha, hb. repeat split; try assumption. lia.
      * exfalso. apply nth_error_None in Ha.
        assert (Hlen : (S j < List.length (recordsFrom 0 0 hs))%nat)
          by (apply nth_error_Some; congruence).
        rewrite recordsFrom_length in Hlen. lia.
  - intros (i & ha & hb & Ha & Hb & Hgt).
    exists (recordFor (levelOf ha) (S (0 + i)) hb), (skipMessage (levelOf ha) (levelOf hb)).
    split; [|split].
    + eapply nth_error_In. rewrite (recordsFrom_succ _ _ _ _ _ Ha), Hb. reflexivity.
    + rewrite recordFor_later_issues.
      destruct (Z.gtb_spec (levelOf hb) (levelOf ha + 1)); [now left|lia].
    + apply skipMessage_starts_with_Skipped.
Qed.

Lemma levelJump_dec (hs : list Element) : levelJump hs \/ ~ levelJump hs.
Proof.
  destruct (existsb (fun h => existsb (fun issue => Js.startsWith issue "Skipped") (issues h))
                    (recordsFrom 0 0 hs)) eqn:E.
  - left. now apply carriesSkipped_levelJump, carriesSkipped_existsb.
  - right. intros Hjump. apply carriesSkipped_levelJump, carriesSkipped_existsb in Hjump.
    congruence.
Qed.

Lemma analyze_summary (doc : Document) :
  summary (analyzeHeadings doc)
  = [ h1Line (Z.of_nat (List.length (filter isH1 (querySelectorAll doc))));
      skipLine (existsb (fun h => existsb (fun issue => Js.startsWith issue "Skipped")
                                          (issues h))
                        (recordsFrom 0 0 (querySelectorAll doc))) ].
Proof.
  unfold analyzeHeadings. cbn [summary app].
  now rewrite forEach_scan_h1Count, forEach_scan_pushed.
Qed.

Lemma skipLine_of_jump (doc : Document) :
  (levelJump (querySelectorAll doc) ->
   nth_error (summary (analyzeHeadings doc)) 1 = Some (skipLine true))
  /\ (~ levelJump (querySelectorAll doc) ->
      nth_error (summary (analyzeHeadings doc)) 1 = Some (skipLine false)).
Proof.
  rewrite analyze_summary. cbn [nth_error].
  destruct (existsb _ (recordsFrom 0 0 (querySelectorAll doc))) eqn:E; split; intros H;
    try reflexivity.
  - exfalso. apply H. now apply carriesSkipped_levelJump, carriesSkipped_existsb.
  - apply carriesSkipped_levelJump, carriesSkipped_existsb in H. congruence.
Qed.

(** Among the selected elements, level 1 is tag H1; elements that are not
    selected are not H1. *)
Lemma isH1_tag (e : Element) :
  existsb (String.eqb (tagName e)) headingTags = true ->
  isH1 e = String.eqb (tagName e) "H1".
Proof.
  destruct e as [tag txt]. cbn [tagName]. intros Hsel.
  cbn [existsb headingTags] in Hsel.
  repeat (apply orb_true_iff in Hsel as [Hsel|Hsel];
          [apply String.eqb_eq in Hsel; subst tag; reflexivity|]).
  discriminate.
Qed.

Lemma count_h1_tags (doc : Document) :
  List.length (filter isH1 (querySelectorAll doc))
  = List.length (filter (fun e => String.eqb (tagName e) "H1") doc).
Proof.
  induction doc as [|e doc IH]; [reflexivity|].
  unfold querySelectorAll in *. cbn [filter].
  destruct (existsb (String.eqb (tagName e)) headingTags) eqn:Hsel.
  - cbn [filter]. rewrite (isH1_tag e Hsel).
    destruct (String.eqb (tagName e) "H1"); cbn [List.length]; now rewrite IH.
  - destruct (String.eqb_spec (tagName e) "H1") as [E|_]; [|exact IH].
    rewrite E in Hsel. discriminate.
Qed.

End RecordFacts.

(** X1. The records are the heading elements of the document, one record
    each and in document order; every record has the level written in its
    tag, between 1 and 6, and the trimmed text of its element. *)
Theorem records_follow_document_order (doc : Document) :
  map element (headingsInfo (analyzeHeadings doc)) = querySelectorAll doc
  /\ Forall (fun r => 1 <= level r <= 6
                     /\ tagName (element r) = "H" ^^ Js.toString (level r)
                     /\ text r = textOf (element r))
            (headingsInfo (analyzeHeadings doc)).
Proof.
  rewrite analyze_headingsInfo. split; [apply recordsFrom_elements|].
  eapply Forall_impl; [|apply (recordsFrom_Forall _ _ (selected_levels doc))].
  intros r ((Hlevel & Htag) & Hl & Ht). rewrite Hl. now repeat split.
Qed.

(** X2. The second summary line reports skipped levels exactly when the
    document has two adjacent headings of which the second is more than
    one level deeper than the first; otherwise it is the success line. *)
Theorem skip_line_iff_level_jump (doc : Document) :
  (levelJump (querySelectorAll doc) <->
   nth_error (summary (analyzeHeadings doc)) 1
   = Some "Issue: Heading levels are skipped (e.g., H1 followed directly by H3)."%string)
  /\ (~ levelJump (querySelectorAll doc) <->
      nth_error (summary (analyzeHeadings doc)) 1
      = Some "Good: Heading levels follow a logical sequence."%string).
Proof.
  destruct (skipLine_of_jump doc) as [Hyes Hno].
  destruct (levelJump_dec (querySelectorAll doc)) as [Hj|Hj].
  - specialize (Hyes Hj). split; split; intros H; try assumption.
    + contradiction.
    + rewrite Hyes in H. discriminate.
  - specialize (Hno Hj). split; split; intros H; try assumption.
    + contradiction.
    + rewrite Hno in H. discriminate.
Qed.

(** X3. The first summary line depends on the number of elements tagged
    H1 anywhere in the document: the error line for none, the success line
    for exactly one, the warning with that number for more. *)
Theorem h1_line_counts_h1_tags (doc : Document) :
  let n := Z.of_nat (List.length (filter (fun e => String.eqb (tagName e) "H1") doc)) in
  (n = 0 -> nth_error (summary (analyzeHeadings doc)) 0
            = Some "Error: No H1 tag found. Every page should have one H1."%string)
  /\ (n = 1 -> nth_error (summary (analyzeHeadings doc)) 0
               = Some "Good: Exactly one H1 tag found."%string)
  /\ (n > 1 -> nth_error (summary (analyzeHeadings doc)) 0
               = Some ("Warning: Multiple H1 tags found (" ^^ Js.toString n ^^
                       "). Best practice is to have only one H1 per page.")).
Proof.
  intros n. rewrite analyze_summary. cbn [nth_error].
  rewrite count_h1_tags. fold n. unfold h1Line.
  repeat split.
  - intros ->. reflexivity.
  - intros ->. reflexivity.
  - intros Hgt. destruct (Z.eqb_spec n 0); [lia|].
    destruct (Z.gtb_spec n 1); [reflexivity|lia].
Qed.

Lemma h1_line_counts_h1_tags_witness :
  nth_error (summary (analyzeHeadings [el "H2" "a"; el "H1" "b"; el "P" "c"; el "H1" "d";
                                       el "H1" "e"])) 0
  = Some "Warning: Multiple H1 tags found (3). Best practice is to have only one H1 per page."%string.
Proof.
  apply (h1_line_counts_h1_tags
           [el "H2" "a"; el "H1" "b"; el "P" "c"; el "H1" "d"; el "H1" "e"]).
  vm_compute. reflexivity.
Defined.

(** X4. The scan only looks back: appending elements to a document leaves
    the records of its headings as they were and adds one record for each
    heading appended. *)
Theorem appending_keeps_earlier_records (d1 d2 : Document) :
  exists more,
    headingsInfo (analyzeHeadings (d1 ++ d2)) = headingsInfo (analyzeHeadings d1) ++ more
    /\ map element more = querySelectorAll d2.
Proof.
  rewrite !analyze_headingsInfo, querySelectorAll_app.
  destruct (recordsFrom_app (querySelectorAll d1) (querySelectorAll d2) 0 0) as (prev & Heq).
  rewrite Heq. eexists. split; [reflexivity|]. apply recordsFrom_elements.
Qed.

(** ** Trimmed text *)

Section TrimFacts.

Lemma allWhiteSpace_append (a b : string) :
  allWhiteSpace (a ^^ b) = allWhiteSpace a && allWhiteSpace b.
Proof.
  induction a as [|c a IH]; [reflexivity|].
  cbn [String.append allWhiteSpace]. now rewrite IH, andb_assoc.
Qed.

Lemma trimStart_split (s : string) :
  exists l, allWhiteSpace l = true /\ s = l ^^ Js.trimStart s.
Proof.
  induction s as [|c s (l & Hl & Hs)].
  - now exists EmptyString.
  - cbn [Js.trimStart]. destruct (Js.isWhiteSpace c) eqn:Hc.
    + exists (String c l). cbn [allWhiteSpace String.append]. rewrite Hc, Hl.
      split; [reflexivity|]. now rewrite <- Hs.
    + now exists EmptyString.
Qed.

Lemma trimStart_first (s : string) : notWhiteSpace (firstChar (Js.trimStart s)).
Proof.
  induction s as [|c s IH]; [exact I|].
  cbn [Js.trimStart]. destruct (Js.isWhiteSpace c) eqn:Hc; [exact IH|exact Hc].
Qed.

Lemma trimStart_blank (s : string) :
  allWhiteSpace s = true -> Js.trimStart s = EmptyString.
Proof.
  induction s as [|c s IH]; [reflexivity|].
  cbn [allWhiteSpace Js.trimStart]. intros H. apply andb_true_iff in H as [Hc Hs].
  rewrite Hc. now apply IH.
Qed.

Lemma trimEnd_split (s : string) :
  exists t, allWhiteSpace t = true /\ s = Js.trimEnd s ^^ t.
Proof.
  induction s as [|c s (t & Ht & Hs)].
  - now exists EmptyString.
  - cbn [Js.trimEnd]. destruct (Js.trimEnd s) as [|b r] eqn:E.
    + destruct (Js.isWhiteSpace c) eqn:Hc.
      * exists (String c t). cbn [allWhiteSpace String.append]. rewrite Hc, Ht.
        split; [reflexivity|]. now rewrite Hs.
      * exists t. split; [assumption|]. now rewrite Hs.
    + exists t. split; [assumption|]. now rewrite Hs.
Qed.

Lemma trimEnd_last (s : string) : notWhiteSpace (lastChar (Js.trimEnd s)).
Proof.
  induction s as [|c s IH]; [exact I|].
  cbn [Js.trimEnd]. destruct (Js.trimEnd s) as [|b r] eqn:E.
  - destruct (Js.isWhiteSpace c) eqn:Hc; [exact I|exact Hc].
  - exact IH.
Qed.

Lemma trimEnd_first (s : string) :
  notWhiteSpace (firstChar s) -> notWhiteSpace (firstChar (Js.trimEnd s)).
Proof.
  destruct s as [|c s]; [intros _; exact I|].
  cbn [firstChar notWhiteSpace Js.trimEnd]. intros Hc.
  destruct (Js.trimEnd s); [rewrite Hc|]; exact Hc.
Qed.

(** [trim] removes white space at both ends and nothing else. *)
Lemma trim_spec (s : string) :
  notWhiteSpace (firstChar (Js.trim s))
  /\ notWhiteSpace (lastChar (Js.trim s))
  /\ exists l t, allWhiteSpace l = true /\ allWhiteSpace t = true
                 /\ s = l ^^ Js.trim s ^^ t.
Proof.
  unfold Js.trim. split; [|split].
  - apply trimEnd_first, trimStart_first.
  - apply trimEnd_last.
  - destruct (trimStart_split s) as (l & Hl & Hs).
    destruct (trimEnd_split (Js.trimStart s)) as (t & Ht & Hm).
    exists l, t. repeat split; try assumption. now rewrite <- Hm.
Qed.

Lemma trim_blank (s : string) :
  Js.trim s = EmptyString <-> allWhiteSpace s = true.
Proof.
  split.
  - intros E. destruct (trim_spec s) as (_ & _ & l & t & Hl & Ht & Hs).
    rewrite E in Hs. rewrite Hs, !allWhiteSpace_append, Hl, Ht. reflexivity.
  - intros H. unfold Js.trim. now rewrite (trimStart_blank s H).
Qed.

Lemma textOf_trim (h : Element) (s : string) :
  textContent h = Some s -> textOf h = Js.trim s.
Proof. unfold textOf. intros ->. now destruct (Js.trim s). Qed.

Lemma textOf_spec (h : Element) :
  notWhiteSpace (firstChar (textOf h))
  /\ notWhiteSpace (lastChar (textOf h))
  /\ match textContent h with
     | None => textOf h = EmptyString
     | Some s => exists l t, allWhiteSpace l = true /\ allWhiteSpace t = true
                             /\ s = l ^^ textOf h ^^ t
     end.
Proof.
  destruct (textContent h) as [s|] eqn:E.
  - rewrite (textOf_trim h s E). apply trim_spec.
  - unfold textOf. rewrite E. repeat split.
Qed.

Lemma textOf_blank (h : Element) :
  textOf h = EmptyString <->
  match textContent h with
  | None => True
  | Some s => allWhiteSpace s = true
  end.
Proof.
  destruct (textContent h) as [s|] eqn:E.
  - rewrite (textOf_trim h s E). apply trim_blank.
  - unfold textOf. rewrite E. tauto.
Qed.

Lemma record_of_heading (doc : Document) (r : HeadingInfo) :
  In r (headingsInfo (analyzeHeadings doc)) ->
  In (element r) (querySelectorAll doc)
  /\ level r = levelOf (element r) /\ text r = textOf (element r).
Proof.
  rewrite analyze_headingsInfo. intros Hin.
  assert (Hall : Forall (fun h => In h (querySelectorAll doc)) (querySelectorAll doc))
    by (apply Forall_forall; auto).
  pose proof (recordsFrom_Forall _ _ Hall 0 0%nat) as Hrec.
  rewrite Forall_forall in Hrec. exact (Hrec r Hin).
Qed.

End TrimFacts.

(** X5. The text of a record is the text content of its element with the
    white space at both ends removed and nothing else changed: it neither
    begins nor ends with white space, and a missing text content gives the
    empty text. *)
Theorem text_is_trimmed_content (doc : Document) (r : HeadingInfo) :
  In r (headingsInfo (analyzeHeadings doc)) ->
  notWhiteSpace (firstChar (text r))
  /\ notWhiteSpace (lastChar (text r))
  /\ match textContent (element r) with
     | None => text r = EmptyString
     | Some s => exists l t, allWhiteSpace l = true /\ allWhiteSpace t = true
                             /\ s = l ^^ text r ^^ t
     end.
Proof.
  intros Hin. destruct (record_of_heading doc r Hin) as (_ & _ & ->).
  apply textOf_spec.
Qed.

Lemma text_is_trimmed_content_witness :
  let e := el "H2" (Js.nl ^^ "   Getting started  ") in
  let r := mkHeadingInfo 2 "Getting started" e [] in
  exists l t, allWhiteSpace l = true /\ allWhiteSpace t = true
              /\ Js.nl ^^ "   Getting started  " = l ^^ "Getting started" ^^ t.
Proof.
  intros e r.
  destruct (text_is_trimmed_content [el "P" "x"; e] r) as (_ & _ & H).
  - left. reflexivity.
  - exact H.
Defined.

(** X6. In the outline a heading is shown with the "(empty)" placeholder
    exactly when its element has no text content or only white space;
    otherwise its trimmed text is shown. *)
Theorem placeholder_iff_blank_content (doc : Document) (r : HeadingInfo) :
  In r (headingsInfo (analyzeHeadings doc)) ->
  (rowText (renderRow r) = EmptyPlaceholder <->
   match textContent (element r) with
   | None => True
   | Some s => allWhiteSpace s = true
   end)
  /\ (rowText (renderRow r) <> EmptyPlaceholder -> rowText (renderRow r) = Shown (text r)).
Proof.
  intros Hin. destruct (record_of_heading doc r Hin) as (_ & _ & Ht).
  rewrite <- textOf_blank, <- Ht. unfold renderRow. cbn [rowText].
  destruct (text r); split; try split; try congruence; try discriminate.
Qed.

Lemma placeholder_iff_blank_content_witness :
  let r := mkHeadingInfo 3 "" (el "H3" "  ") [] in
  rowText (renderRow r) = EmptyPlaceholder.
Proof.
  intros r.
  destruct (placeholder_iff_blank_content [el "H3" "  "] r) as [[_ H] _].
  - left. reflexivity.
  - apply H. reflexivity.
Defined.

(** * Further properties of [handleFetchAndAnalyze] *)

Section RunFacts.

Variable fetch : string -> Outcome Response.
Variable parseFromString : string -> Document.
Variable encodeURIComponent : string -> string.

Ltac run_handler :=
  unfold handleFetchAndAnalyze, tryCatchFinally, bind, perform, await, setHeadings,
    setAnalysisSummary, setIsLoading, setError, update, ret, throw.

Lemma run_empty_url (w : World) :
  url (state w) = EmptyString ->
  handleFetchAndAnalyze fetch parseFromString encodeURIComponent w
  = (Returned tt,
     mkWorld (mkState EmptyString (headings (state w)) (isLoading (state w))
                      (Some "Please enter a URL."%string) (analysisSummary (state w)))
             (effects w)).
Proof.
  intros Hurl. unfold handleFetchAndAnalyze. rewrite Hurl.
  cbn [String.eqb]. unfold setError, update. now rewrite Hurl.
Qed.

(** A run with a URL ends in one of two ways: the analysis of the parsed
    body is stored, or the failure is reported and nothing is stored. *)
Lemma run_outcomes (w : World) :
  url (state w) <> EmptyString ->
  let u := url (state w) in
  let target := proxyUrl encodeURIComponent u in
  (exists response html,
      fetch target = Returned response /\ ok response = true
      /\ responseText response = Returned html
      /\ handleFetchAndAnalyze fetch parseFromString encodeURIComponent w
         = (Returned tt,
            mkWorld (analysedState u (parseFromString html))
                    (effects w ++ [Fetch target; Analyze (parseFromString html)])))
  \/ (exists err,
        fetchFails (fetch target) (errorText err)
        /\ handleFetchAndAnalyze fetch parseFromString encodeURIComponent w
           = (Returned tt,
              mkWorld (failedState u (errorText err))
                      (effects w ++ [Fetch target; ConsoleError "Fetch or Parse Error:" err]))).
Proof.
  intros Hurl u target. run_handler.
  destruct (String.eqb_spec (url (state w)) EmptyString) as [E|_]; [contradiction|].
  cbn [state effects url headings isLoading error analysisSummary fst snd].
  fold u. fold target. unfold fetchFails.
  destruct (fetch target) as [response|err] eqn:Hfetch.
  - destruct (ok response) eqn:Hok; cbn [negb].
    + destruct (responseText response) as [html|err] eqn:Htext.
      * left. exists response, html. repeat split; try assumption.
        cbn. rewrite <- app_assoc. reflexivity.
      * right. exists err. split.
        -- right. split; [reflexivity|]. now exists err.
        -- cbn. rewrite <- app_assoc. reflexivity.
    + right. eexists (ErrorObject _). split.
      * left. split; reflexivity.
      * cbn. rewrite <- app_assoc. reflexivity.
  - right. exists err. split; [reflexivity|].
    cbn. rewrite <- app_assoc. reflexivity.
Qed.

End RunFacts.

(** X7. When the fetch gives a success status and the body can be read,
    the run stores the analysis of the parsed body in place of whatever
    was stored, clears the error and the loading flag, and has called the
    fetch once and then the analyzer once. *)
Theorem successful_run_stores_analysis
    (fetch : string -> Outcome Response) (parseFromString : string -> Document)
    (encodeURIComponent : string -> string) (w : World)
    (response : Response) (html : string) :
  url (state w) <> EmptyString ->
  fetch (proxyUrl encodeURIComponent (url (state w))) = Returned response ->
  ok response = true ->
  responseText response = Returned html ->
  exists w',
    handleFetchAndAnalyze fetch parseFromString encodeURIComponent w = (Returned tt, w')
    /\ headings (state w') = headingsInfo (analyzeHeadings (parseFromString html))
    /\ analysisSummary (state w') = summary (analyzeHeadings (parseFromString html))
    /\ error (state w') = None
    /\ isLoading (state w') = false
    /\ effects w' = effects w ++ [Fetch (proxyUrl encodeURIComponent (url (state w)));
                                  Analyze (parseFromString html)].
Proof.
  intros Hurl Hfetch Hok Htext.
  destruct (run_outcomes fetch parseFromString encodeURIComponent w Hurl)
    as [(response' & html' & Hfetch' & _ & Htext' & Hrun)|(err & Hfail & _)].
  - rewrite Hfetch in Hfetch'. injection Hfetch' as <-.
    rewrite Htext in Htext'. injection Htext' as <-.
    rewrite Hrun. eexists. split; [reflexivity|]. now repeat split.
  - exfalso. unfold fetchFails in Hfail. rewrite Hfetch in Hfail.
    destruct Hfail as [[Hbad _]|[_ (e & He & _)]]; congruence.
Qed.

Lemma successful_run_stores_analysis_witness :
  let page := [el "H1" "Title"; el "H3" "Sub"] in
  let previous := [mkHeadingInfo 2 "Old" (el "H2" "Old") []] in
  let w := mkWorld (mkState "example.com" previous false (Some "old error"%string) []) [] in
  exists w',
    handleFetchAndAnalyze
      (fun _ => Returned (mkResponse true 200 "OK" (Returned "<h1>Title</h1><h3>Sub</h3>"%string)))
      (fun _ => page) (fun u => u) w = (Returned tt, w')
    /\ map levelAndText (headings (state w')) = [(1, "Title"%string); (3, "Sub"%string)]
    /\ error (state w') = None
    /\ effects w' = [Fetch "https://api.allorigins.win/raw?url=https://example.com";
                     Analyze page].
Proof.
  intros page previous w.
  destruct (successful_run_stores_analysis
              (fun _ => Returned (mkResponse true 200 "OK"
                                    (Returned "<h1>Title</h1><h3>Sub</h3>"%string)))
              (fun _ => page) (fun u => u) w
              (mkResponse true 200 "OK" (Returned "<h1>Title</h1><h3>Sub</h3>"%string))
              "<h1>Title</h1><h3>Sub</h3>")
    as (w' & Hrun & Hh & _ & He & _ & Heff); try reflexivity; [discriminate|].
  exists w'. split; [exact Hrun|]. split; [now rewrite Hh|]. now split.
Defined.





Section UrlFacts.

Lemma startsWith_append (p s : string) : Js.startsWith (p ^^ s) p = true.
Proof.
  unfold Js.startsWith. induction p as [|c p IH]; cbn [String.append String.prefix].
  - now destruct s.
  - destruct (ascii_dec c c); [exact IH|contradiction].
Qed.

End UrlFacts.

(** X10. The URL that is fetched always carries a scheme: a URL that
    begins with "http://" or "https://" is used as it is, any other gets
    "https://" put in front; formatting a formatted URL changes nothing. *)
Theorem formattedUrl_has_scheme (u : string) :
  (Js.startsWith u "http://" = true \/ Js.startsWith u "https://" = true ->
   formattedUrl u = u)
  /\ (Js.startsWith u "http://" = false -> Js.startsWith u "https://" = false ->
      formattedUrl u = "https://" ^^ u)
  /\ (Js.startsWith (formattedUrl u) "http://" = true
      \/ Js.startsWith (formattedUrl u) "https://" = true)
  /\ formattedUrl (formattedUrl u) = formattedUrl u.
Proof.
  assert (Hkeep : Js.startsWith u "http://" = true \/ Js.startsWith u "https://" = true ->
                  formattedUrl u = u).
  { unfold formattedUrl. intros [H|H]; rewrite H; cbn [negb andb]; [reflexivity|].
    now rewrite andb_false_r. }
  assert (Hadd : Js.startsWith u "http://" = false -> Js.startsWith u "https://" = false ->
                 formattedUrl u = "https://" ^^ u).
  { unfold formattedUrl. now intros -> ->. }
  assert (Hscheme : Js.startsWith (formattedUrl u) "http://" = true
                    \/ Js.startsWith (formattedUrl u) "https://" = true).
  { destruct (Js.startsWith u "http://") eqn:H1.
    - left. now rewrite Hkeep; auto.
    - destruct (Js.startsWith u "https://") eqn:H2.
      + right. now rewrite Hkeep; auto.
      + right. rewrite Hadd by reflexivity. apply startsWith_append. }
  repeat split; try assumption.
  unfold formattedUrl at 1. destruct Hscheme as [H|H]; rewrite H; cbn [negb andb];
    [reflexivity|now rewrite andb_false_r].
Qed.

(** * Sessions *)

Section SessionFacts.

Variable parseFromString : string -> Document.
Variable encodeURIComponent : string -> string.

Lemma analyzer_levels (doc : Document) :
  Forall (fun h => 1 <= level h <= 6) (headingsInfo (analyzeHeadings doc)).
Proof.
  rewrite analyze_headingsInfo.
  eapply Forall_impl; [|apply (recordsFrom_Forall _ _ (selected_levels doc))].
  intros r ((Hlevel & _) & Hl & _). now rewrite Hl.
Qed.

Lemma settled_initial : settled initialState.
Proof.
  unfold settled, initialState. cbn [isLoading headings analysisSummary error].
  split; [reflexivity|]. split; [constructor|]. split; [now left|discriminate].
Qed.

Lemma settled_analysed (u : string) (doc : Document) : settled (analysedState u doc).
Proof.
  unfold settled, analysedState. cbn [isLoading headings analysisSummary error].
  split; [reflexivity|]. split; [apply analyzer_levels|]. split; [|discriminate].
  right. now rewrite analyze_summary.
Qed.

Lemma settled_failed (u failureText : string) : settled (failedState u failureText).
Proof.
  unfold settled, failedState. cbn [isLoading headings analysisSummary error].
  split; [reflexivity|]. split; [constructor|]. split; [now left|discriminate].
Qed.

Lemma settled_levels (s : AppState) :
  settled s -> Forall (fun h => 1 <= level h) (headings s).
Proof.
  intros (_ & Hlevels & _). eapply Forall_impl; [|exact Hlevels].
  intros h Hh. cbn beta in Hh. lia.
Qed.

Lemma reachable_settled (s : AppState) :
  Reachable parseFromString encodeURIComponent s -> settled s.
Proof.
  induction 1 as [|s v _ IH|s fetch _ IH].
  - apply settled_initial.
  - exact IH.
  - destruct (String.eqb_spec (url s) EmptyString) as [E|N].
    + rewrite (run_empty_url fetch parseFromString encodeURIComponent (mkWorld s []) E).
      destruct IH as (Hload & Hlevels & Hsum & _).
      unfold settled. cbn [snd state isLoading headings analysisSummary error].
      split; [assumption|]. split; [assumption|]. split; [assumption|discriminate].
    + destruct (run_outcomes fetch parseFromString encodeURIComponent (mkWorld s []) N)
        as [(response & html & _ & _ & _ & Hrun)|(err & _ & Hrun)]; rewrite Hrun.
      * apply settled_analysed.
      * apply settled_failed.
Qed.

End SessionFacts.



(** * Further properties of the report and its export *)

Section ExportFacts.



Lemma replaceNonAlphanumeric_length (u : string) :
  String.length (replaceNonAlphanumeric u) = String.length u.
Proof. induction u as [|c u IH]; [reflexivity|]. cbn. now rewrite IH. Qed.

Lemma replaceNonAlphanumeric_safe (u : string) :
  allChars (fun c => isAlphanumeric c || Ascii.eqb c "_") (replaceNonAlphanumeric u) = true.
Proof.
  induction u as [|c u IH]; [reflexivity|].
  cbn [replaceNonAlphanumeric allChars]. rewrite IH, andb_true_r.
  destruct (isAlphanumeric c) eqn:Hc; [now rewrite Hc|reflexivity].
Qed.

Lemma replaceNonAlphanumeric_fixed (u : string) :
  allChars (fun c => isAlphanumeric c || Ascii.eqb c "_") u = true ->
  replaceNonAlphanumeric u = u.
Proof.
  induction u as [|c u IH]; [reflexivity|].
  cbn [replaceNonAlphanumeric allChars]. intros H.
  apply andb_true_iff in H as [Hc Hu]. rewrite (IH Hu). f_equal.
  destruct (isAlphanumeric c); [reflexivity|].
  cbn [orb] in Hc. apply Ascii.eqb_eq in Hc. now subst c.
Qed.

End ExportFacts.




(** X14. In every state of a session the export handler returns: it makes
    one blob of the report with type text/plain, clicks a link to it whose
    download name is built from the URL box, and afterwards removes the
    link and revokes the blob address. *)
Theorem export_in_session
    (parseFromString : string -> Document) (encodeURIComponent : string -> string)
    (createObjectURL : string -> string -> string) (s : AppState) :
  Reachable parseFromString encodeURIComponent s ->
  exists report,
    formatResultsForExport s = Returned report
    /\ let link := mkAnchor (createObjectURL report "text/plain"%string)
                            ("heading_analysis_" ^^ replaceNonAlphanumeric (url s) ^^ ".txt") in
       handleExportToFile createObjectURL s
       = (Returned tt,
          [ CreateObjectURL report "text/plain"; AppendChild link; Click link;
            RemoveChild link; RevokeObjectURL (createObjectURL report "text/plain"%string) ]).
Proof.
  intros Hreach.
  pose proof (format_is_unlines s (settled_levels s (reachable_settled _ _ s Hreach))) as Hret.
  unfold handleExportToFile. rewrite Hret. eexists. split; reflexivity.
Qed.

Lemma export_in_session_witness :
  let s := state (snd (setUrl "my site.org/a?b" (mkWorld initialState []))) in
  exists report,
    snd (handleExportToFile (fun _ _ => "blob:42"%string) s)
    = [ CreateObjectURL report "text/plain";
        AppendChild (mkAnchor "blob:42" "heading_analysis_my_site_org_a_b.txt");
        Click (mkAnchor "blob:42" "heading_analysis_my_site_org_a_b.txt");
        RemoveChild (mkAnchor "blob:42" "heading_analysis_my_site_org_a_b.txt");
        RevokeObjectURL "blob:42" ].
Proof.
  intros s.
  destruct (export_in_session (fun _ => []) (fun u => u) (fun _ _ => "blob:42"%string) s)
    as (report & _ & Hexport).
  - apply reach_typed, reach_initial.
  - exists report. cbv zeta in Hexport. rewrite Hexport. reflexivity.
Defined.

(** X15. The download name is "heading_analysis_", the URL with every
    character other than a letter or a digit replaced by "_", and ".txt":
    the middle part has the length of the URL, holds only letters, digits
    and underscores, and is kept by a second replacement; a URL of such
    characters only is kept as it is. *)
Theorem download_name_is_safe (u : string) :
  let safe := fun c => isAlphanumeric c || Ascii.eqb c "_" in
  downloadName u = "heading_analysis_" ^^ replaceNonAlphanumeric u ^^ ".txt"
  /\ String.length (replaceNonAlphanumeric u) = String.length u
  /\ allChars safe (replaceNonAlphanumeric u) = true
  /\ downloadName (replaceNonAlphanumeric u) = downloadName u
  /\ (allChars safe u = true -> replaceNonAlphanumeric u = u).
Proof.
  intros safe. split; [reflexivity|]. split; [apply replaceNonAlphanumeric_length|].
  split; [apply replaceNonAlphanumeric_safe|]. split.
  - unfold downloadName.
    now rewrite (replaceNonAlphanumeric_fixed _ (replaceNonAlphanumeric_safe u)).
  - apply replaceNonAlphanumeric_fixed.
Qed.

(** * Properties of the view *)

Section ViewFacts.

Lemma icon_of_h1Line (n : Z) :
  getSummaryIcon (h1Line n)
  = Some (if n =? 0 then redTriangle else if n >? 1 then yellowInfo else greenCheck).
Proof. unfold h1Line. destruct (n =? 0); [reflexivity|]. now destruct (n >? 1). Qed.

Lemma icon_of_skipLine (b : bool) :
  getSummaryIcon (skipLine b) = Some (if b then redTriangle else greenCheck).
Proof. now destruct b. Qed.

Lemma summary_icons_present (doc : Document) :
  forallb (fun item => match getSummaryIcon item with Some _ => true | None => false end)
          (summary (analyzeHeadings doc)) = true.
Proof.
  rewrite analyze_summary. cbn [forallb].
  now rewrite icon_of_h1Line, icon_of_skipLine.
Qed.

Lemma paddingClass_safelisted (h : HeadingInfo) :
  1 <= level h <= 6 -> In (paddingClass h) safelist.
Proof.
  intros Hlevel. unfold paddingClass.
  assert (Hcases : level h = 1 \/ level h = 2 \/ level h = 3 \/ level h = 4
                   \/ level h = 5 \/ level h = 6) by lia.
  destruct Hcases as [-> | [-> | [-> | [-> | [-> | ->]]]]]; cbn; tauto.
Qed.



End ViewFacts.

(** X16. Every summary line of an analysis gets an icon: the first line
    the red triangle when the document has no H1 element, the green check
    for exactly one, the yellow info sign for more; the second line the
    red triangle when some heading skips a level, the green check otherwise. *)
Theorem summary_lines_have_icons (doc : Document) :
  let n := Z.of_nat (List.length (filter (fun e => String.eqb (tagName e) "H1") doc)) in
  exists first second,
    map getSummaryIcon (summary (analyzeHeadings doc)) = [Some first; Some second]
    /\ (n = 0 -> first = mkIcon AlertTriangle "inline-block mr-2 h-5 w-5 text-red-500")
    /\ (n = 1 -> first = mkIcon CheckCircle "inline-block mr-2 h-5 w-5 text-green-500")
    /\ (n > 1 -> first = mkIcon Info "inline-block mr-2 h-5 w-5 text-yellow-500")
    /\ (levelJump (querySelectorAll doc) ->
        second = mkIcon AlertTriangle "inline-block mr-2 h-5 w-5 text-red-500")
    /\ (~ levelJump (querySelectorAll doc) ->
        second = mkIcon CheckCircle "inline-block mr-2 h-5 w-5 text-green-500").
Proof.
  intros n. rewrite analyze_summary. cbn [map].
  rewrite icon_of_h1Line, icon_of_skipLine, count_h1_tags. fold n.
  eexists; eexists; split; [reflexivity|].
  split; [intros ->; reflexivity|]. split; [intros ->; reflexivity|].
  split.
  - intros Hn. destruct (Z.eqb_spec n 0); [lia|]. destruct (Z.gtb_spec n 1); [reflexivity|lia].
  - destruct (existsb _ (recordsFrom 0 0 (querySelectorAll doc))) eqn:E; split; intros H;
      try reflexivity.
    + exfalso. apply H. now apply carriesSkipped_levelJump, carriesSkipped_existsb.
    + apply carriesSkipped_levelJump, carriesSkipped_existsb in H. congruence.
Qed.

(** X17. The padding class built for the row of any analysed heading is
    one of the classes kept by the safelist of the Tailwind configuration,
    and every class of the safelist is the padding class of one of the
    levels 1 to 6. *)
Theorem padding_classes_are_safelisted :
  (forall (doc : Document) (r : HeadingInfo),
     In r (headingsInfo (analyzeHeadings doc)) ->
     In (paddingClass r) safelist
     /\ Js.startsWith (rowClassName (renderRow r)) (paddingClass r ^^ " ") = true)
  /\ (forall c : string,
        In c safelist ->
        exists n, 1 <= n <= 6 /\ c = "pl-" ^^ Js.toString ((n - 1) * 4)).
Proof.
  split.
  - intros doc r Hin. split.
    + apply paddingClass_safelisted.
      pose proof (analyzer_levels doc) as Hall. rewrite Forall_forall in Hall.
      exact (Hall r Hin).
    + unfold renderRow. cbn [rowClassName].
      change (paddingClass r ^^ " border-l-2 " ^^ ?x)
        with (paddingClass r ^^ " " ^^ "border-l-2 " ^^ x).
      rewrite <- append_assoc. apply startsWith_append.
  - intros c Hc. cbn in Hc.
    destruct Hc as [<- | [<- | [<- | [<- | [<- | [<- | []]]]]]];
      [exists 1|exists 2|exists 3|exists 4|exists 5|exists 6]; (split; [lia|reflexivity]).
Qed.

Lemma padding_classes_are_safelisted_witness :
  In (paddingClass (mkHeadingInfo 6 "Fine print" (el "H6" "Fine print") [])) safelist.
Proof.
  apply (proj1 padding_classes_are_safelisted [el "H6" "Fine print"]).
  left. reflexivity.
Defined.



(** X19. A press of the button with an empty URL box changes nothing on
    the page but the error banner, which shows "Please enter a URL.": a
    results panel that was on the page stays there with the same content. *)
Theorem empty_url_keeps_results_on_screen
    (fetch : string -> Outcome Response) (parseFromString : string -> Document)
    (encodeURIComponent : string -> string) (w : World) :
  url (state w) = EmptyString ->
  let before := render (state w) in
  let after := render (state (snd (handleFetchAndAnalyze fetch parseFromString
                                                         encodeURIComponent w))) in
  errorBanner after = Some "Please enter a URL."%string
  /\ results after = results before
  /\ inputValue after = inputValue before
  /\ buttonDisabled after = buttonDisabled before
  /\ buttonLabel after = buttonLabel before.
Proof.
  intros Hurl before after. unfold before, after.
  rewrite (run_empty_url fetch parseFromString encodeURIComponent w Hurl).
  unfold render, renderResults.
  cbn [snd state url headings isLoading error analysisSummary
       errorBanner results inputValue buttonDisabled buttonLabel].
  rewrite Hurl. now repeat split.
Qed.

Lemma empty_url_keeps_results_on_screen_witness :
  let r := analyzeHeadings [el "H1" "Kept"] in
  let w := mkWorld (mkState "" (headingsInfo r) false None (summary r)) [] in
  let after := render (state (snd (handleFetchAndAnalyze
                                     (fun _ => Threw (ErrorObject "unused")) (fun _ => [])
                                     (fun u => u) w))) in
  errorBanner after = Some "Please enter a URL."%string
  /\ results after = results (render (state w)).
Proof.
  intros r w after.
  destruct (empty_url_keeps_results_on_screen
              (fun _ => Threw (ErrorObject "unused")) (fun _ => []) (fun u => u) w eq_refl)
    as (Hbanner & Hresults & _).
  now split.
Defined.

(** X20. The report and the download name are built from the URL box as
    it is at export time: editing the box after an analysis changes the
    header line of the report and the download name, while the summary
    and headings in the report stay those of the page analysed before. *)
Theorem report_names_url_box (u v : string) (doc : Document) :
  let edited := state (snd (setUrl v (mkWorld (analysedState u doc) []))) in
  formatResultsForExport edited
  = Returned (unlines (reportLines v (summary (analyzeHeadings doc))
                                   (headingsInfo (analyzeHeadings doc))))
  /\ forall createObjectURL : string -> string -> string,
       exists report,
         nth_error (snd (handleExportToFile createObjectURL edited)) 2
         = Some (Click (mkAnchor (createObjectURL report "text/plain"%string)
                                 (downloadName v))).
Proof.
  intros edited.
  assert (Hret : formatResultsForExport edited
                 = Returned (unlines (reportLines v (summary (analyzeHeadings doc))
                                                  (headingsInfo (analyzeHeadings doc))))).
  { apply (format_is_unlines edited). unfold edited. cbn.
    eapply Forall_impl; [|apply (analyzer_levels doc)]. intros h Hh. cbn beta in Hh. lia. }
  split; [exact Hret|].
  intros createObjectURL. unfold handleExportToFile. rewrite Hret.
  eexists. reflexivity.
Qed.
